(** * Event detection: hierarchical event aggregation

    A shallow embedding of [factfinder/src/event_detection.py] (class
    [EventDetection]) and the properties of its pipeline: spatial
    preprocessing of messages, per-object event extraction, event
    connections, population rebalancing, outlier filtering.

    Conventions of the embedding.
    - A pandas table is the list of its rows, a row is a record, a column
      is a field.  A GeoDataFrame also carries its CRS tag.
    - [NaN] in an id column is [None]; numeric float columns that the code
      divides are [pdfloat] (rationals extended with the two infinities and
      NaN, as numpy divides); the other Python numbers are rationals [Q].
      The sum and the mean of a float column and the difference of two
      floats are rounded: they are the operations of the class [Float64].
    - A Python exception is the [Raise] outcome of the [result] monad; a
      [try]/[except] is a match on it.
    - The clustering capability (BERTopic), the geometric predicate of the
      spatial joins and the three loaders that read files or query the
      road network are parameters of the development.  What the loaders
      do with the tables they load is modelled apart, in [Loaders].
    - The columns [docs] and [geometry] of the events and connections
      tables are not part of the rows: nothing below depends on them. *)

From stdpp Require Import gmap strings.
From Stdlib Require Import ZArith QArith Qround String Ascii List Lia.
From Stdlib Require Import DecimalString Sorting.Sorted Sorting.Permutation.
From Stdlib Require Import Sorting.Mergesort Orders Floats.SpecFloat.
Import ListNotations.
Close Scope Q_scope.
Open Scope string_scope.
Open Scope list_scope.
Open Scope nat_scope.

Set Default Proof Using "Type".

(** ** Python values *)

Inductive exn : Type :=
| KeyError | IndexError | TypeError | ValueError | ZeroDivisionError.

Inductive result (A : Type) : Type :=
| Ok (x : A)
| Raise (e : exn).
Arguments Ok {A} x.
Arguments Raise {A} e.

#[global] Instance result_ret : MRet result := fun A x => Ok x.

#[global] Instance result_bind : MBind result := fun A B k r =>
  match r with
  | Ok x => k x
  | Raise e => Raise e
  end.

(** [str(z)] of a Python int. *)
Definition str_Z (z : Z) : string := NilZero.string_of_int (Z.to_int z).

(** [sep.join(l)] *)
Fixpoint join (sep : string) (l : list string) : string :=
  match l with
  | [] => EmptyString
  | [s] => s
  | s :: l' => s +:+ sep +:+ join sep l'
  end.

(** [x in l] for integers, the test behind [Series.isin]. *)
Definition isin (x : Z) (l : list Z) : bool := existsb (Z.eqb x) l.

(** [Series.unique()]: first occurrences, in order of appearance.  A NaN
    is one value of the result like any other. *)
Fixpoint unique {A} (eqb : A -> A -> bool) (l : list A) : list A :=
  match l with
  | [] => []
  | x :: l' => x :: filter (fun y => negb (eqb x y)) (unique eqb l')
  end.

Definition oid_eqb (x y : option Z) : bool :=
  match x, y with
  | Some a, Some b => Z.eqb a b
  | None, None => true
  | _, _ => false
  end.

(** [column == object_id]: a NaN compares unequal to everything. *)
Definition col_eq (x y : option Z) : bool :=
  match x, y with
  | Some a, Some b => Z.eqb a b
  | _, _ => false
  end.

(** ** Float columns

    numpy's division of two integer columns: [0/0] is NaN, [x/0] an
    infinity, and no exception is raised. *)

Inductive pdfloat : Type :=
| Fin (q : Q)
| PInf
| NInf
| NaN.

Definition pd_div (x y : Z) : pdfloat :=
  if (y =? 0)%Z then
    if (x =? 0)%Z then NaN else if (0 <? x)%Z then PInf else NInf
  else Fin (inject_Z x / inject_Z y)%Q.

Definition pd_mul (x y : pdfloat) : pdfloat :=
  match x, y with
  | NaN, _ | _, NaN => NaN
  | Fin p, Fin q => Fin (p * q)%Q
  | Fin p, PInf | PInf, Fin p =>
      match (p ?= 0)%Q with Eq => NaN | Gt => PInf | Lt => NInf end
  | Fin p, NInf | NInf, Fin p =>
      match (p ?= 0)%Q with Eq => NaN | Gt => NInf | Lt => PInf end
  | PInf, PInf | NInf, NInf => PInf
  | PInf, NInf | NInf, PInf => NInf
  end.

(** [Series.min()] and [Series.max()] skip NaN; of no value they are NaN. *)
Definition somes {A} (col : list (option A)) : list A :=
  flat_map (fun v => match v with Some x => [x] | None => [] end) col.

Definition col_min (col : list (option Z)) : option Z :=
  match somes col with
  | [] => None
  | x :: xs => Some (fold_right Z.min x xs)
  end.

Definition col_max (col : list (option Z)) : option Z :=
  match somes col with
  | [] => None
  | x :: xs => Some (fold_right Z.max x xs)
  end.

(** [(col - col.min()) / (col.max() - col.min())] *)
Definition min_max_normalize (col : list (option Z)) : list pdfloat :=
  map (fun v =>
         match v, col_min col, col_max col with
         | Some x, Some lo, Some hi => pd_div (x - lo) (hi - lo)
         | _, _, _ => NaN
         end) col.

(** ** Spatial levels *)

Inductive Level : Type := building | link | road | global.

Definition Level_eqb (x y : Level) : bool :=
  match x, y with
  | building, building | link, link | road, road | global, global => true
  | _, _ => false
  end.

(** [self.levels] *)
Definition levels : list Level := [building; link; road; global].

Definition level_str (l : Level) : string :=
  match l with
  | building => "building"
  | link => "link"
  | road => "road"
  | global => "global"
  end.

(** [levels.index(level)] *)
Fixpoint index_of (l : Level) (ls : list Level) : result nat :=
  match ls with
  | [] => Raise ValueError
  | x :: ls' => if Level_eqb x l then Ok 0 else i ← index_of l ls'; Ok (S i)
  end.

(** [l[i]] of a Python list, for [i >= 0]. *)
Definition list_get {A} (l : list A) (i : nat) : result A :=
  match nth_error l i with
  | Some x => Ok x
  | None => Raise IndexError
  end.

(** [self.functions_weights] *)
Definition functions_weights : list (string * Q) :=
  [ ("Безопасность", 1); ("Другое", 1 # 10); ("Благоустройство", 1 # 2);
    ("ЖКХ", 1 # 2); ("ТКО", 1 # 2); ("Дороги", 1 # 2); ("Экология", 1 # 2);
    ("Социальная защита", 1 # 2); ("Строительство", 1 # 2);
    ("Транспорт", 1 # 2); ("Здравоохранение", 1 # 2);
    ("Энергетика", 1 # 2); ("Образование", 1 # 2) ]%Q.

Definition exn_eqb (x y : exn) : bool :=
  match x, y with
  | KeyError, KeyError | IndexError, IndexError | TypeError, TypeError
  | ValueError, ValueError | ZeroDivisionError, ZeroDivisionError => true
  | _, _ => false
  end.

(** [try: body  except e: handler] *)
Definition try_except {A} (body : result A) (e : exn) (handler : result A)
  : result A :=
  match body with
  | Ok x => Ok x
  | Raise e' => if exn_eqb e' e then handler else Raise e'
  end.

(** [x / y] on Python numbers, as the values of the population dicts
    are after [to_dict]. *)
Definition py_div (x y : Q) : result Q :=
  if Qeq_bool y 0 then Raise ZeroDivisionError else Ok (x / y)%Q.

(** [d[k]] on a dict keyed by object ids; NaN is never a key. *)
Definition dict_get (d : gmap Z Q) (k : option Z) : result Q :=
  match k with
  | Some z => match d !! z with Some v => Ok v | None => Raise KeyError end
  | None => Raise KeyError
  end.

(** [str(object_id)] (the decimal digits of the id; pandas may carry the
    id as a float, whose rendering has the suffix [.0]). *)
Definition str_oid (k : option Z) : string :=
  match k with
  | Some z => str_Z z
  | None => "nan"
  end.

(** [astype(int)] of a float: truncation toward zero. *)
Definition astype_int (q : Q) : Z := (Qnum q ÷ Z.pos (Qden q))%Z.

(** A cell of an object column: after [replace] the [importance] column
    holds a weight, or the category itself when the table has no entry. *)
Inductive cell : Type :=
| Num (q : Q)
| Str (s : string).

Definition Qsum (l : list Q) : Q := fold_right Qplus 0%Q l.

(** ** Rounded arithmetic

    The potential populations and the importance weights are binary64
    numbers, given as the rationals they are; two of them compare as
    rationals.  The sum and the mean of a float column and the difference
    of two floats are rounded, and the order in which the cells of a
    column are added is numpy's: the three operations are parameters,
    [fsum] for [Series.sum()], [fsub] for the difference of two floats
    and [fmean] for [Series.mean()] of a column that has a value. *)
Class Float64 : Type := {
  fsum : list Q -> Q;
  fsub : Q -> Q -> Q;
  fmean : list Q -> Q
}.

(** Binary64 as IEEE 754 defines it (round to nearest, ties to even), a
    column being added cell by cell from 0, as numpy adds a short one.
    [to_Q] reads a finite float; populations and weights stay far from
    the overflow threshold, where a result would be an infinity. *)
Module Binary64.

Definition prec : Z := 53.
Definition emax : Z := 1024.

Definition of_Z (z : Z) : spec_float := binary_normalize prec emax z 0 false.

(** The float a rational is; of a rational that is no float, with
    numerator and denominator below [2^53], the nearest float. *)
Definition of_Q (q : Q) : spec_float :=
  SFdiv prec emax (of_Z (Qnum q)) (of_Z (Z.pos (Qden q))).

Definition to_Q (x : spec_float) : Q :=
  match x with
  | S754_finite s m e => Qred (inject_Z (cond_Zopp s (Z.pos m)) * 2 ^ e)%Q
  | _ => 0%Q
  end.

Definition sum (l : list Q) : Q :=
  to_Q (fold_left (SFadd prec emax) (map of_Q l) (S754_zero false)).

Definition sub (x y : Q) : Q := to_Q (SFsub prec emax (of_Q x) (of_Q y)).

(** [the_sum / count], as pandas computes a mean. *)
Definition mean (l : list Q) : Q :=
  to_Q (SFdiv prec emax (of_Q (sum l)) (of_Z (Z.of_nat (length l)))).

End Binary64.

#[global] Instance binary64 : Float64 :=
  {| fsum := Binary64.sum; fsub := Binary64.sub; fmean := Binary64.mean |}.


(** [Series.mean()] of the [importance] column. *)
Fixpoint nums (l : list cell) : result (list Q) :=
  match l with
  | [] => Ok []
  | Num q :: l' => qs ← nums l'; Ok (q :: qs)
  | Str _ :: _ => Raise TypeError
  end.

Definition mean {float_ops : Float64} (l : list cell) : result pdfloat :=
  qs ← nums l;
  match qs with
  | [] => Ok NaN
  | _ => Ok (Fin (fmean qs))
  end.

(** [cats.replace(self.functions_weights)] on one cell. *)
Definition replace_weight (c : string) : cell :=
  match find (fun kv => String.eqb (fst kv) c) functions_weights with
  | Some kv => Num (snd kv)
  | None => Str c
  end.

(** ** The mode of a string column

    [Series.mode()] returns every value whose count is the largest, in
    sorted order. *)

Module StringOrder <: TotalLeBool.
Definition t := string.
Definition leb := String.leb.
Theorem leb_total : forall x y, leb x y = true \/ leb y x = true.
Proof. exact String.leb_total. Qed.
End StringOrder.

Module StringSort := Sort StringOrder.

Definition count (c : string) (l : list string) : nat :=
  length (filter (String.eqb c) l).

Definition max_count (l : list string) : nat :=
  fold_right Nat.max 0 (map (fun c => count c l) l).

Definition mode (l : list string) : list string :=
  StringSort.sort
    (unique String.eqb (filter (fun c => count c l =? max_count l) l)).

(** ** Tables *)

Record GeoDataFrame (A : Type) : Type := mkGeo {
  rows : list A;
  crs : option Z
}.
Arguments mkGeo {A} rows crs.
Arguments rows {A} g.
Arguments crs {A} g.

(** [frame.set_crs(c)]: tags a frame that has no CRS; refuses to replace a
    different one. *)
Definition set_crs {A} (g : GeoDataFrame A) (c : Z) : result (GeoDataFrame A) :=
  match crs g with
  | None => Ok (mkGeo (rows g) (Some c))
  | Some c' => if (c' =? c)%Z then Ok g else Raise ValueError
  end.

(** A left join: every matching right row, or one row of NaN. *)
Definition left_join {B} (found : list B) : list (option B) :=
  match found with
  | [] => [None]
  | _ => map Some found
  end.

(** [itertools.combinations(l, 2)] *)
Fixpoint combinations {A} (l : list A) : list (A * A) :=
  match l with
  | [] => []
  | x :: l' => map (pair x) l' ++ combinations l'
  end.

(** [set(s)] of a string: the set of its characters. *)
Definition char_set (s : string) : gset ascii :=
  list_to_set (list_ascii_of_string s).

(** [re.match(r'^-1.*', x)]: the string starts with [-1] (the rest of the
    pattern matches any, also empty, run of characters). *)
Definition is_outlier (x : string) : bool := String.prefix "-1" x.

(** Topic table of the clustering capability, [get_topic_info()]. *)
Record TopicInfo : Type := mkTopicInfo {
  Topic : Z;
  Count : Z;
  Name : string;
  Representative_Docs : list string
}.

(** The clustering capability.  [fit_transform] and [reduce_outliers]
    return the topic of every document or raise; [update_topics] may raise;
    [get_topic_info docs topics] is the topic table of a model whose
    current assignment of [docs] is [topics]. *)
Record TopicModel : Type := mkTopicModel {
  fit_transform : list string -> result (list Z);
  reduce_outliers : list string -> list Z -> result (list Z);
  update_topics : list string -> list Z -> result unit;
  get_topic_info : list string -> list Z -> list TopicInfo
}.

(** A row of the table [_event_from_object] returns. *)
Record EventRow : Type := mkEventRow {
  e_Topic : Z;
  e_Count : Z;
  e_Name : string;
  e_level : Level;
  e_object_id : string;
  e_id : string;
  potential_population : Q;
  e_message_ids : list Z;
  e_duration : option Z;
  e_category : string;
  e_importance : pdfloat
}.

(** A row of the events table [_get_events] returns. *)
Record Event : Type := mkEvent {
  name : string;
  level : Level;
  id : string;
  population : Q;
  importance_ : pdfloat;
  risk : pdfloat;
  message_ids : string
}.

(** A row of the connections table. *)
Record Connection : Type := mkConnection {
  weight : nat;
  a : string;
  b : string
}.

Section Pipeline.

(** Geometries and the predicate of the spatial joins ([sjoin], by
    default [intersects]). *)
Context {geometry : Type} {float_ops : Float64}.
Variable intersects : geometry -> geometry -> bool.

(** Reprojection of a geometry from one CRS to another ([to_crs]). *)
Variable transform : Z -> Z -> geometry -> geometry.

(** A row of [messages.csv] as [_read_data] returns it, every geometry
    present.  Columns: text of the comment, geometry, date and time
    (seconds), message_id, cats. *)
Record RawMessage : Type := mkRawMessage {
  raw_text : option string;
  raw_geometry : geometry;
  raw_date_time : Z;
  raw_message_id : Z;
  raw_cats : string
}.

(** A row of the links table of [_get_roads]; its index is [l_link_id]. *)
Record Link : Type := mkLink {
  l_link_id : Z;
  l_name : option string;
  l_geometry : geometry;
  l_road_id : option Z
}.

(** A row of the buildings table of [_get_buildings], with the link and
    road of the nearest link; its index is [b_building_id]. *)
Record Building : Type := mkBuilding {
  b_address : string;
  b_building_id : Z;
  population_balanced : Q;
  b_geometry : geometry;
  b_link_id : option Z;
  b_road_id : option Z
}.

(** A preprocessed message. *)
Record Message : Type := mkMessage {
  message_id : Z;
  text : string;
  m_geometry : geometry;
  building_id : option Z;
  link_id : option Z;
  road_id : option Z;
  date_time : Z;
  cats : string;
  importance : cell;
  global_id : Z
}.

(** A row of the messages table [run] returns. *)
Record OutMessage : Type := mkOutMessage {
  o_message_id : Z;
  o_text : string;
  o_geometry : geometry;
  o_date_time : Z;
  block : string
}.

(** The loaders: the parsed message file, the road network of a city in a
    projection, and the buildings joined to their nearest link. *)
Variable messages_csv : list RawMessage.
Variable _get_roads : string -> Z -> list Link.
Variable _get_buildings : list Link -> list Building.

(** [_create_model(min_event_size)] *)
Variable _create_model : Z -> TopicModel.

Definition _read_data : result (GeoDataFrame RawMessage) :=
  set_crs (mkGeo messages_csv None) 4326.

(** *** [_collect_population] *)

(** [buildings[[value, key]].groupby(key).sum()[value].to_dict()]; rows
    whose key is NaN belong to no group. *)
Definition groupby_sum (key : Building -> option Z) (bs : list Building)
  : gmap Z Q :=
  fold_left
    (fun m x =>
       match key x with
       | Some k => <[k := (default 0%Q (m !! k) + population_balanced x)%Q]> m
       | None => m
       end) bs ∅.

Definition _collect_population (buildings : list Building)
  : Level -> gmap Z Q :=
  let pops_global := {[ 0%Z := Qsum (map population_balanced buildings) ]} in
  let pops_buildings :=
    list_to_map
      (map (fun x => (b_building_id x, population_balanced x)) (rev buildings)) in
  let pops_links := groupby_sum b_link_id buildings in
  let pops_roads := groupby_sum b_road_id buildings in
  fun l =>
    match l with
    | global => pops_global
    | road => pops_roads
    | link => pops_links
    | building => pops_buildings
    end.

(** *** [_preprocess] *)

(** The table after the two spatial joins and the join with the
    buildings' own link and road (lines 97 to 102). *)
Record JoinedRow : Type := mkJoinedRow {
  j_message : RawMessage;
  j_building_id : option Z;
  j_link_id : option Z;
  j_road_name : option string;
  j_road_id : option Z;
  j_link_id_from_building : option Z;
  j_road_id_from_building : option Z
}.

Definition joined (messages : list RawMessage) (buildings : list Building)
  (links : list Link) : list JoinedRow :=
  flat_map (fun m =>
    flat_map (fun ob =>
      let bid := option_map b_building_id ob in
      flat_map (fun ol =>
        map (fun ofb =>
               mkJoinedRow m bid
                 (option_map l_link_id ol)
                 (ol ≫= l_name)
                 (ol ≫= l_road_id)
                 (ofb ≫= b_link_id)
                 (ofb ≫= b_road_id))
            (left_join
               (filter (fun x => col_eq (Some (b_building_id x)) bid) buildings)))
        (left_join (filter (fun l => intersects (raw_geometry m) (l_geometry l)) links)))
      (left_join (filter (fun x => intersects (raw_geometry m) (b_geometry x)) buildings)))
    messages.

(** [col.loc[col.isna()] = other.loc[col.isna()]] on one row. *)
Definition fillna (v other : option Z) : option Z :=
  match v with
  | Some x => Some x
  | None => other
  end.

(** Lines 103 to 107 on one row; [None] when [dropna] removes the row. *)
Definition preprocess_row (r : JoinedRow) : option Message :=
  let link_id := fillna (j_link_id r) (j_link_id_from_building r) in
  let road_id := fillna (j_road_id r) (j_road_id_from_building r) in
  match raw_text (j_message r) with
  | None => None
  | Some text =>
      Some (mkMessage (raw_message_id (j_message r)) text
              (raw_geometry (j_message r)) (j_building_id r) link_id road_id
              (raw_date_time (j_message r)) (raw_cats (j_message r))
              (replace_weight (raw_cats (j_message r))) 0%Z)
  end.

Definition _preprocess (messages : GeoDataFrame RawMessage)
  (buildings : list Building) (links : list Link) : GeoDataFrame Message :=
  mkGeo (omap preprocess_row (joined (rows messages) buildings links))
        (crs messages).

(** *** [_event_from_object] *)

(** [messages[f'{level}_id']] *)
Definition column (l : Level) (m : Message) : option Z :=
  match l with
  | building => building_id m
  | link => link_id m
  | road => road_id m
  | global => Some (global_id m)
  end.

(** [buildings[f'{level}_id']]; the buildings table has no global_id. *)
Definition b_column (l : Level) : result (Building -> option Z) :=
  match l with
  | building => Ok (fun x => Some (b_building_id x))
  | link => Ok b_link_id
  | road => Ok b_road_id
  | global => Raise KeyError
  end.

(** Lines 146 to 161: the potential population of the events of an object
    and the level they are filed under. *)
Definition assign_potential_population (buildings : list Building)
  (population : Level -> gmap Z Q) (object_id : option Z) (event_level : Level)
  : result (Q * Level) :=
  if negb (Level_eqb event_level global) then
    if negb (Level_eqb event_level road) then
      try_except
        (i ← index_of event_level levels;
         higher_event_level ← list_get levels (i + 1);
         own ← b_column event_level;
         higher ← b_column higher_event_level;
         higher_level_object_id ←
           list_get
             (unique oid_eqb
                (map higher (filter (fun x => col_eq (own x) object_id) buildings)))
             0;
         try_except
           (p ← dict_get (population event_level) object_id;
            q ← dict_get (population higher_event_level) higher_level_object_id;
            r ← py_div p q;
            Ok (r, event_level))
           ZeroDivisionError
           (Ok (1%Q, event_level)))
        IndexError
        (Ok (1%Q, global))
    else Ok (1%Q, event_level)
  else Ok (1%Q, event_level).

(** Lines 137 to 141: the outlier reduction.  Returns the topics of the
    documents and the assignment the model holds afterwards. *)
Definition reduce_step (topic_model : TopicModel) (docs : list string)
  (topics : list Z) : result (list Z * list Z) :=
  match reduce_outliers topic_model docs topics with
  | Ok topics' =>
      match update_topics topic_model docs topics' with
      | Ok _ => Ok (topics', topics')
      | Raise ValueError => Ok (topics', topics)
      | Raise e => Raise e
      end
  | Raise ValueError => Ok (topics, topics)
  | Raise e => Raise e
  end.

(** [pd.DataFrame({'id': message_ids, 'text': docs, 'topic_id': topics})] *)
Definition clustered (message_ids : list Z) (topics : list Z)
  : result (list (Z * Z)) :=
  if length message_ids =? length topics
  then Ok (combine message_ids topics)
  else Raise ValueError.

(** [(max - min).days] of the timestamps, NaN when there is none. *)
Definition day_span (times : list Z) : option Z :=
  match times with
  | [] => None
  | x :: xs => Some ((fold_right Z.max x xs - fold_right Z.min x xs) / 86400)%Z
  end.

(** Line 167 *)
Definition category (messages : list Message) (x : list Z) : string :=
  join ", " (mode (map cats (filter (fun m => isin (message_id m) x) messages))).

Definition _event_from_object (buildings : list Building)
  (messages : list Message) (topic_model : TopicModel) (target_column : Level)
  (population : Level -> gmap Z Q) (object_id : option Z) (event_level : Level)
  : result (option (list EventRow)) :=
  let local_messages :=
    filter (fun m => col_eq (column target_column m) object_id) messages in
  let message_ids := map message_id local_messages in
  let docs := map text local_messages in
  if 5 <=? length docs then
    match fit_transform topic_model docs with
    | Raise TypeError => Ok None
    | Raise e => Raise e
    | Ok topics0 =>
        '(topics, fitted) ← reduce_step topic_model docs topics0;
        let event_model := get_topic_info topic_model docs fitted in
        '(pop, level) ←
          assign_potential_population buildings population object_id event_level;
        clustered_messages ← clustered message_ids topics;
        event_model ←
          mapM (fun info =>
                  let ids :=
                    map fst (filter (fun r => (snd r =? Topic info)%Z)
                               clustered_messages) in
                  let members :=
                    filter (fun m => isin (message_id m) ids) messages in
                  imp ← mean (map importance members);
                  Ok (mkEventRow (Topic info) (Count info) (Name info) level
                        (str_oid object_id)
                        (str_Z (Topic info) +:+ "_" +:+ level_str event_level
                           +:+ "_" +:+ str_oid object_id)
                        pop ids (day_span (map date_time members))
                        (category messages ids) imp))
               event_model;
        Ok (Some event_model)
    end
  else Ok None.

(** *** [_get_events] *)

(** Lines 177 to 184: the events of every object of every level, from the
    coarsest level to the finest, in one table.  [pd.concat] of no table
    at all raises ValueError. *)
Definition extracted_events (messages : list Message)
  (buildings : list Building) (min_event_size : Z) : result (list EventRow) :=
  let pops := _collect_population buildings in
  let topic_model := _create_model min_event_size in
  events ←
    mapM (fun level =>
            mapM (fun oid =>
                    _event_from_object buildings messages topic_model level pops
                      oid level)
                 (unique oid_eqb (map (column level) messages)))
         (rev levels);
  match omap (fun item => item) (concat events) with
  | [] => Raise ValueError
  | tables => Ok (concat tables)
  end.

(** Lines 190 and 191: the normalized columns. *)
Definition intensity_column (events : list EventRow) : list pdfloat :=
  min_max_normalize (map (fun e => Some (e_Count e)) events).

Definition duration_column (events : list EventRow) : list pdfloat :=
  min_max_normalize (map e_duration events).

(** Lines 187 to 193 on one row, given its normalized intensity and
    duration. *)
Definition final_event (e : EventRow) (intensity duration : pdfloat) : Event :=
  mkEvent (e_Name e) (e_level e) (e_id e) (potential_population e)
    (e_importance e)
    (pd_mul (pd_mul (pd_mul intensity duration) (e_importance e))
       (Fin (potential_population e)))
    (join ", " (map str_Z (e_message_ids e))).

Fixpoint final_events (events : list EventRow) (intensity duration : list pdfloat)
  : list Event :=
  match events, intensity, duration with
  | e :: events', i :: intensity', d :: duration' =>
      final_event e i d :: final_events events' intensity' duration'
  | _, _, _ => []
  end.

Definition _get_events (messages : GeoDataFrame Message)
  (buildings : list Building) (min_event_size : Z)
  : result (GeoDataFrame Event) :=
  events ← extracted_events (rows messages) buildings min_event_size;
  events ← set_crs (mkGeo events None) 4326;
  Ok (mkGeo (final_events (rows events) (intensity_column (rows events))
               (duration_column (rows events)))
            (crs events)).

(** *** [_get_event_connections]

    [self.events.message_ids] is, since line 189, the string of the ids
    joined by [", "]; [set] of it is a set of characters.  With fewer than
    two events there is no pair, the frame has the one column of
    [reset_index], and naming its three columns raises ValueError.  When
    no pair has a positive weight the frame is empty, [apply] returns a
    frame instead of a column, and the assignment of line 211 raises
    ValueError. *)

Definition _get_event_connections (events : GeoDataFrame Event)
  : result (GeoDataFrame Connection) :=
  let weights :=
    map (fun c => size (char_set (fst c) ∩ char_set (snd c)))
        (combinations (map message_ids (rows events))) in
  let nodes := combinations (map id (rows events)) in
  match nodes with
  | [] => Raise ValueError
  | _ =>
      let connections :=
        map (fun wn => mkConnection (fst wn) (fst (snd wn)) (snd (snd wn)))
            (combine weights nodes) in
      let connections := filter (fun c => 0 <? weight c) connections in
      match connections with
      | [] => Raise ValueError
      | _ => set_crs (mkGeo connections None) 32636
      end
  end.

(** *** [_rebalance] and [_rebalance_events] *)

Definition str_isin (x : string) (l : list string) : bool :=
  existsb (String.eqb x) l.

Definition level_isin (x : Level) (l : list Level) : bool :=
  existsb (Level_eqb x) l.

(** [events[events.id.isin(ids) & events.level.isin(levels)]
       .potential_population.sum()] *)
Definition accounted (events : list EventRow) (ids : list string)
  (levels : list Level) : Q :=
  fsum (map potential_population
          (filter (fun e => str_isin (e_id e) ids && level_isin (e_level e) levels)
                  events)).

Definition _rebalance (connections : list Connection) (events : list EventRow)
  (levels : list Level) (event_population : Q) (event_id : string) : Q :=
  let connections_of_event :=
    map b (filter (fun c => String.eqb (a c) event_id) connections) in
  if 0 <? length connections_of_event then
    let accounted_pops := accounted events connections_of_event levels in
    if Qle_bool accounted_pops event_population then
      fsub event_population accounted_pops
    else
      let connections_of_event :=
        map a (filter (fun c => String.eqb (b c) event_id) connections) in
      let accounted_pops := accounted events connections_of_event levels in
      fsub event_population accounted_pops
  else event_population.

(** The rebalanced table: the row and its integer [population]. *)
Definition _rebalance_events (events : list EventRow)
  (connections : list Connection) : result (list (EventRow * Z)) :=
  events_rebalanced ←
    mapM (fun level =>
            i ← index_of level levels;
            let levels_to_account := firstn i levels in
            let events_for_level :=
              filter (fun e => Level_eqb (e_level e) level) events in
            Ok (map (fun x =>
                       (x, _rebalance connections events levels_to_account
                             (potential_population x) (e_id x)))
                    events_for_level))
         (skipn 1 levels);
  Ok (map (fun xp => (fst xp, astype_int (snd xp))) (concat events_rebalanced)).

(** *** [_filter_outliers] *)

Definition _filter_outliers (events : GeoDataFrame Event)
  (connections : GeoDataFrame Connection)
  : GeoDataFrame Event * GeoDataFrame Connection :=
  let events' :=
    mkGeo (filter (fun e => negb (is_outlier (name e))) (rows events))
          (crs events) in
  let connections' :=
    mkGeo (filter (fun c => negb (is_outlier (a c))) (rows connections))
          (crs connections) in
  let connections' :=
    mkGeo (filter (fun c => negb (is_outlier (b c))) (rows connections'))
          (crs connections') in
  (events', connections').

(** *** [_prepare_messages] *)

(** [frame.to_crs(c)]: a frame without CRS cannot be reprojected. *)
Definition to_crs (g : GeoDataFrame OutMessage) (c : Z)
  : result (GeoDataFrame OutMessage) :=
  match crs g with
  | None => Raise ValueError
  | Some c0 =>
      Ok (mkGeo
            (map (fun m =>
                    mkOutMessage (o_message_id m) (o_text m)
                      (transform c0 c (o_geometry m)) (o_date_time m) (block m))
                 (rows g))
            (Some c))
  end.

Definition _prepare_messages (messages : GeoDataFrame Message)
  : result (GeoDataFrame OutMessage) :=
  to_crs
    (mkGeo (map (fun m =>
                   mkOutMessage (message_id m) (text m) (m_geometry m)
                     (date_time m) (cats m))
                (rows messages))
           (crs messages))
    4326.

(** *** [run] *)

Definition run (city_name : string) (city_crs : Z) (min_event_size : Z)
  : result (GeoDataFrame OutMessage * GeoDataFrame Event
            * GeoDataFrame Connection) :=
  messages ← _read_data;
  let links := _get_roads city_name city_crs in
  let buildings := _get_buildings links in
  let messages := _preprocess messages buildings links in
  events ← _get_events messages buildings min_event_size;
  connections ← _get_event_connections events;
  let '(events, connections) := _filter_outliers events connections in
  messages ← _prepare_messages messages;
  Ok (messages, events, connections).

(** The tables [run] holds on the way: the extracted events before
    [_get_events] renames and projects them, and [self.events] and
    [self.connections] before [_filter_outliers]. *)
Definition extracted_in_run (city_name : string) (city_crs : Z)
  (min_event_size : Z) : result (list EventRow) :=
  messages ← _read_data;
  let links := _get_roads city_name city_crs in
  let buildings := _get_buildings links in
  let messages := _preprocess messages buildings links in
  extracted_events (rows messages) buildings min_event_size.

Definition detected_events (city_name : string) (city_crs : Z)
  (min_event_size : Z) : result (GeoDataFrame Event) :=
  messages ← _read_data;
  let links := _get_roads city_name city_crs in
  let buildings := _get_buildings links in
  let messages := _preprocess messages buildings links in
  _get_events messages buildings min_event_size.

Definition detected_connections (city_name : string) (city_crs : Z)
  (min_event_size : Z) : result (GeoDataFrame Connection) :=
  events ← detected_events city_name city_crs min_event_size;
  _get_event_connections events.

End Pipeline.

(** ** Reference notions the properties are stated against *)

(** The position of a level in the hierarchy, finest first. *)
Definition level_rank (l : Level) : nat :=
  match l with
  | building => 0
  | link => 1
  | road => 2
  | global => 3
  end.

(** [finer x y]: level [x] is strictly finer than level [y]. *)
Definition finer (x y : Level) : bool := level_rank x <? level_rank y.

(** [levels[:levels.index(level)]], as [_rebalance_events] passes it to
    [_rebalance]. *)
Definition levels_to_account (l : Level) : list Level :=
  firstn (level_rank l) levels.

(** The populations accounted for an event: the potential populations
    of the events that some connection with [a] the event's id names as
    [b] and whose level is strictly finer than the event's, in the order
    of the events table. *)
Definition out_populations (connections : list Connection)
  (events : list EventRow) (e : EventRow) : list Q :=
  map potential_population
    (filter (fun x =>
               existsb (fun c => String.eqb (a c) (e_id e)
                                 && String.eqb (b c) (e_id x))
                       connections
               && finer (e_level x) (e_level e))
            events).

(** The connections that leave an event (those with [a] its id). *)
Definition out_connections (connections : list Connection) (e : EventRow)
  : list Connection :=
  filter (fun c => String.eqb (a c) (e_id e)) connections.

(** The members two events share: the size of the intersection of
    their member-message-id sets. *)
Definition shared_messages (x y : EventRow) : nat :=
  size ((list_to_set (e_message_ids x) : gset Z) ∩ list_to_set (e_message_ids y)).

(** The level above a level; [global] has none. *)
Definition parent_level (l : Level) : option Level :=
  match l with
  | building => Some link
  | link => Some road
  | road => Some global
  | global => None
  end.

(** The distinct parent ids, at the next level up, of the buildings of an
    object of level building or link, in order of appearance. *)
Definition parents_of {geometry} (buildings : list (@Building geometry))
  (l : Level) (object_id : option Z) : list (option Z) :=
  match l with
  | building =>
      unique oid_eqb
        (map b_link_id
           (filter (fun x => col_eq (Some (b_building_id x)) object_id) buildings))
  | link =>
      unique oid_eqb
        (map b_road_id (filter (fun x => col_eq (b_link_id x) object_id) buildings))
  | _ => []
  end.

(** The normalized values of the events that outlier filtering keeps. *)
Definition surviving (events : list EventRow) (column : list pdfloat)
  : list pdfloat :=
  map snd
    (filter (fun ev => negb (is_outlier (e_Name (fst ev)))) (combine events column)).

(** A value of a normalized column is the number [q]. *)
Definition is_num (q : Q) (v : pdfloat) : bool :=
  match v with
  | Fin r => Qeq_bool r q
  | _ => false
  end.

(** Some value of the column is the number [q]. *)
Definition attains (q : Q) (column : list pdfloat) : Prop :=
  exists v, In v column /\ is_num q v = true.

(** What min-max normalization makes of a column [col]: when two of its
    values differ, the normalized values are NaN (for a NaN) or lie
    between 0 and 1, and both 0 and 1 occur among them; when all its
    values are equal, every normalized value is NaN. *)
Definition min_max_spec (col : list (option Z)) (out : list pdfloat) : Prop :=
  ((exists x y, In (Some x) col /\ In (Some y) col /\ x <> y) ->
   attains 0 out /\ attains 1 out
   /\ forall v, In v out -> v = NaN \/ exists q, v = Fin q /\ (0 <= q <= 1)%Q)
  /\ ((forall x y, In (Some x) col -> In (Some y) col -> x = y) ->
      forall v, In v out -> v = NaN).

(** ** A small city

    Three buildings on one named link of one road.  The clustering
    stand-in puts all documents of a call in topic 0 when there are at
    least [min_event_size] of them and in the noise topic -1 otherwise,
    and names a topic by its label followed by its words. *)
Module Demo.

Definition topic_info (docs : list string) (topics : list Z) : list TopicInfo :=
  map (fun t =>
         mkTopicInfo t (Z.of_nat (length (filter (Z.eqb t) topics)))
           (str_Z t +:+ "_water_pipe_leak") [])
      (unique Z.eqb topics).

Definition create_model (min_event_size : Z) : TopicModel :=
  mkTopicModel
    (fun docs =>
       Ok (map (fun _ =>
                  if (Z.of_nat (length docs) <? min_event_size)%Z
                  then (-1)%Z else 0%Z) docs))
    (fun docs topics => Ok topics)
    (fun _ _ => Ok tt)
    topic_info.

(** Geometries are cells of a grid; two geometries intersect when they
    are the same cell.  Reprojection keeps the cell. *)
Definition intersects : Z -> Z -> bool := Z.eqb.
Definition transform (from to : Z) (g : Z) : Z := g.

(** Message [i], posted in [cell] on day [i]. *)
Definition message (cell : Z) (i : Z) : RawMessage :=
  mkRawMessage (Some ("leak " +:+ str_Z i)) cell (i * 86400)%Z i "ЖКХ".

Definition ids (first : nat) (n : nat) : list Z := map Z.of_nat (seq first n).

(** Twenty messages in building 0, twelve in building 1, eight in
    building 2. *)
Definition messages40 : list RawMessage :=
  map (message 0) (ids 1 20) ++ map (message 1) (ids 21 12)
  ++ map (message 2) (ids 33 8).

(** Eight messages, all in building 0. *)
Definition messages8 : list RawMessage := map (message 0) (ids 1 8).

(** Three messages, all in building 0. *)
Definition messages3 : list RawMessage := map (message 0) (ids 1 3).

Definition get_roads (city_name : string) (city_crs : Z) : list Link :=
  [mkLink 0 (Some "Main") 50%Z (Some 0%Z)].

Definition buildings : list Building :=
  [mkBuilding "Main 1" 0 40 0%Z (Some 0%Z) (Some 0%Z);
   mkBuilding "Main 2" 1 60 1%Z (Some 0%Z) (Some 0%Z);
   mkBuilding "Main 3" 2 100 2%Z (Some 0%Z) (Some 0%Z)].

Definition get_buildings (links : list (@Link Z)) : list Building := buildings.

Abbreviation preprocessed csv :=
  (rows (_preprocess intersects (mkGeo csv (Some 4326%Z)) buildings
           (get_roads "City" 32636))).

Abbreviation extracted csv min_event_size :=
  (extracted_in_run intersects csv get_roads get_buildings create_model "City"
     32636 min_event_size).

Abbreviation run csv city_crs min_event_size :=
  (run intersects transform csv get_roads get_buildings create_model "City"
     city_crs min_event_size).

(** The events of one object, as [_get_events] asks for them. *)
Abbreviation events_of csv min_event_size l object_id :=
  (_event_from_object buildings (preprocessed csv) (create_model min_event_size)
     l (_collect_population buildings) (Some object_id) l).

(** The members of an object. *)
Abbreviation members csv l object_id :=
  (filter (fun m => col_eq (column l m) (Some object_id)) (preprocessed csv)).

(** A road event and a building event inside it, connected. *)
Definition road_event : EventRow :=
  mkEventRow 0 9 "0_road_works" road "4" "0_road_4" 200 [1; 2; 3]%Z
    (Some 2%Z) "Дороги" (Fin (1 # 2)).

Definition building_event : EventRow :=
  mkEventRow 0 5 "0_road_works" building "7" "0_building_7" 50 [1; 2]%Z
    (Some 1%Z) "Дороги" (Fin (1 # 2)).

Definition two_events : list EventRow := [road_event; building_event].

Definition one_connection : list Connection :=
  [mkConnection 2 "0_road_4" "0_building_7"].

(** A message inside building 3, whose nearest link is link 0 of road
    0, and inside the buffer of link 2 of road 1. *)
Definition corner_message : RawMessage :=
  mkRawMessage (Some "pothole") 7%Z 0 11 "Дороги".

Definition corner_buildings : list Building :=
  [mkBuilding "Side 3" 3 12 7%Z (Some 0%Z) (Some 0%Z)].

Definition corner_links : list Link :=
  [mkLink 0 (Some "Main") 50%Z (Some 0%Z);
   mkLink 2 (Some "Side") 7%Z (Some 1%Z)].

End Demo.

(** The connections that enter an event (those with [b] its id). *)
Definition in_connections (connections : list Connection) (e : EventRow)
  : list Connection :=
  filter (fun c => String.eqb (b c) (e_id e)) connections.

(** The populations accounted for an event in the reverse direction: the
    potential populations of the events that some connection with [b] the
    event's id names as [a] and whose level is strictly finer than the
    event's. *)
Definition in_populations (connections : list Connection)
  (events : list EventRow) (e : EventRow) : list Q :=
  map potential_population
    (filter (fun x =>
               existsb (fun c => String.eqb (b c) (e_id e)
                                 && String.eqb (a c) (e_id x))
                       connections
               && finer (e_level x) (e_level e))
            events).


(** The connection [_get_event_connections] computes for an ordered pair
    of rows of the events table. *)
Definition pair_connection (p : Event * Event) : Connection :=
  mkConnection
    (size (char_set (message_ids (fst p)) ∩ char_set (message_ids (snd p))))
    (id (fst p)) (id (snd p)).

(** The characters a rendered list of message ids can hold. *)
Definition id_chars : gset ascii :=
  list_to_set (list_ascii_of_string "0123456789-, ").

(** The clustering model without its refinement pass: [reduce_outliers]
    returns the topics it is given and [update_topics] succeeds. *)
Definition unrefined (topic_model : TopicModel) : TopicModel :=
  mkTopicModel (fit_transform topic_model) (fun _ topics => Ok topics)
    (fun _ _ => Ok tt) (get_topic_info topic_model).

(** The rows of the joined table that come from one message. *)
Definition joined_of {geometry} (intersects : geometry -> geometry -> bool)
  (buildings : list (@Building geometry)) (links : list (@Link geometry))
  (m : @RawMessage geometry) : list JoinedRow :=
  joined intersects [m] buildings links.


(** ** The loaders

    What [_read_data], [_get_roads] and [_get_buildings] do with the
    tables they load.  The file contents, the edges of the drive graph
    and the geometric operations (parsing of WKT, representative point of
    a union, buffer, reprojection, nearest join) are parameters. *)

Section Loaders.

Context {geometry : Type}.

(** A row of [messages.csv]: the text, the geometry as WKT when the row
    has one, the time, the id and the category. *)
Record CsvRow : Type := mkCsvRow {
  csv_text : option string;
  csv_geometry : option string;
  csv_date_time : Z;
  csv_message_id : Z;
  csv_cats : string
}.

(** [shapely.wkt.loads] and [unary_union.representative_point()]. *)
Variable loads : string -> geometry.
Variable representative_point : list geometry -> geometry.

(** Lines 40 to 46 of [_read_data]: the rows that have a geometry, parsed,
    then the rows that have none, at the representative point of the
    others. *)
Definition _read_data_rows (df : list CsvRow) : list (@RawMessage geometry) :=
  let messages_with_geometry :=
    omap (fun r =>
            match csv_geometry r with
            | Some wkt =>
                Some (mkRawMessage (csv_text r) (loads wkt) (csv_date_time r)
                        (csv_message_id r) (csv_cats r))
            | None => None
            end) df in
  let rep_point :=
    representative_point (map raw_geometry messages_with_geometry) in
  let messages_without_geometry :=
    omap (fun r =>
            match csv_geometry r with
            | Some _ => None
            | None =>
                Some (mkRawMessage (csv_text r) rep_point (csv_date_time r)
                        (csv_message_id r) (csv_cats r))
            end) df in
  messages_with_geometry ++ messages_without_geometry.

(** The [name] of an edge of the drive graph: missing, one name, or a
    list of names. *)
Inductive EdgeName : Type :=
| name_nan
| name_str (s : string)
| name_list (l : list string).

(** An edge of the drive graph, projected in [city_crs]. *)
Record Edge : Type := mkEdge {
  edge_name : EdgeName;
  edge_geometry : geometry
}.

(** [geometry.buffer(7)] and the reprojection of [to_crs]. *)
Variable buffer : geometry -> geometry.
Variable reproject : Z -> Z -> geometry -> geometry.

(** Line 61: a list of names becomes the names joined by [", "]. *)
Definition link_name (n : EdgeName) : option string :=
  match n with
  | name_nan => None
  | name_str s => Some s
  | name_list l => Some (join ", " l)
  end.

(** [enumerate(l)] *)
Definition enumerate {A} (l : list A) : list (Z * A) :=
  combine (map Z.of_nat (seq 0 (length l))) l.

(** Lines 62 and 63: [road_name_id], the distinct names with their
    position. *)
Definition road_name_id (names : list (option string)) : list (string * Z) :=
  map (fun kv => (snd kv, fst kv)) (enumerate (unique String.eqb (somes names))).

(** [names.replace(road_name_id)] on one cell; every name is a key. *)
Definition replace_name (table : list (string * Z)) (name : option string)
  : option Z :=
  name ≫= fun s => option_map snd (find (fun kv => String.eqb (fst kv) s) table).

(** Lines 56 to 65 of [_get_roads], from the edges of the drive graph. *)
Definition _get_roads_rows (city_crs : Z) (edges : list Edge)
  : list (@Link geometry) :=
  let names := map (fun e => link_name (edge_name e)) edges in
  let table := road_name_id names in
  map (fun ie =>
         mkLink (fst ie) (link_name (edge_name (snd ie)))
           (reproject city_crs 4326 (buffer (edge_geometry (snd ie))))
           (replace_name table (link_name (edge_name (snd ie)))))
      (enumerate edges).

(** A row of [population.geojson]. *)
Record FileBuilding : Type := mkFileBuilding {
  f_address : string;
  f_population_balanced : Q;
  f_geometry : geometry
}.

(** [sjoin_nearest(..., max_distance=500)]: the links nearest to a
    geometry, none when all are too far. *)
Variable nearest : geometry -> list (@Link geometry) -> list (@Link geometry).

(** [drop_duplicates(subset=key)]: the first row of every key. *)
Fixpoint drop_duplicates {A} (key : A -> Z) (l : list A) : list A :=
  match l with
  | [] => []
  | x :: l' =>
      x :: filter (fun y => negb (key x =? key y)%Z) (drop_duplicates key l')
  end.

(** Lines 71 to 76 of [_get_buildings]: the buildings of the file, in the
    CRS [file_crs], numbered by their position and joined to their
    nearest link. *)
Definition _get_buildings_rows (file_crs : Z) (file : list FileBuilding)
  (links : list (@Link geometry)) : list (@Building geometry) :=
  drop_duplicates b_building_id
    (flat_map
       (fun ib =>
          let g := reproject file_crs 4326 (f_geometry (snd ib)) in
          map (fun ol =>
                 mkBuilding (f_address (snd ib)) (fst ib)
                   (f_population_balanced (snd ib)) g
                   (option_map l_link_id ol) (ol ≫= l_road_id))
              (left_join (nearest g links)))
       (enumerate file)).

End Loaders.

(** ** A run from the files *)

Section FromFiles.

Context {geometry : Type} {float_ops : Float64}.
Variable intersects : geometry -> geometry -> bool.
Variable loads : string -> geometry.
Variable representative_point : list geometry -> geometry.
Variable buffer : geometry -> geometry.
Variable reproject : Z -> Z -> geometry -> geometry.
Variable nearest : geometry -> list (@Link geometry) -> list (@Link geometry).

(** The edges of the drive graph of a place, projected in a CRS; the
    rows of [messages.csv]; the rows of [population.geojson] and their
    CRS. *)
Variable graph_edges : string -> Z -> list (@Edge geometry).
Variable messages_file : list CsvRow.
Variable population_file : list (@FileBuilding geometry).
Variable file_crs : Z.

Variable _create_model : Z -> TopicModel.

(** [run], with the three loaders as the code has them. *)
Definition run_from_files (city_name : string) (city_crs min_event_size : Z) :=
  run intersects reproject
    (_read_data_rows loads representative_point messages_file)
    (fun name crs => _get_roads_rows buffer reproject crs (graph_edges name crs))
    (fun links => _get_buildings_rows reproject nearest file_crs population_file
                    links)
    _create_model city_name city_crs min_event_size.

End FromFiles.

(** ** More cases of the small city *)

Module Cases.

(** A road event with less population than the building event inside it. *)
Definition small_road_event : EventRow :=
  mkEventRow 0 9 "0_road_works" road "4" "0_road_4" 40 [1; 2; 3]%Z
    (Some 2%Z) "Дороги" (Fin (1 # 2)).

Definition crowded_events : list EventRow :=
  [small_road_event; Demo.building_event].

(** An event of every level; the road event is connected to the building
    event inside it. *)
Definition link_event : EventRow :=
  mkEventRow 0 7 "0_road_works" link "2" "0_link_2" 120 [4; 5]%Z
    (Some 1%Z) "Дороги" (Fin (1 # 2)).

Definition global_event : EventRow :=
  mkEventRow 0 9 "0_road_works" global "0" "0_global_0" 1 [1; 2; 3; 4; 5]%Z
    (Some 4%Z) "Дороги" (Fin (1 # 2)).

Definition all_levels : list EventRow :=
  [global_event; Demo.road_event; link_event; Demo.building_event].







(** Five messages inside building 3 and inside the buffer of link 2,
    which no building is assigned to. *)
Definition corner_messages : list (@RawMessage Z) :=
  map (Demo.message 7) (Demo.ids 1 5).

(** Messages in building 0 of three categories: of the first five, two
    categories are as frequent; of all seven, one is the most frequent. *)
Definition majority_messages : list (@RawMessage Z) :=
  map (fun ic => mkRawMessage (Some ("jam " +:+ str_Z (fst ic))) 0%Z
                   (fst ic * 86400)%Z (fst ic) (snd ic))
      [(1, "Транспорт"); (2, "Дороги"); (3, "Транспорт"); (4, "Дороги");
       (5, "ЖКХ"); (6, "ЖКХ"); (7, "ЖКХ")]%Z.

Definition tied_messages : list (@RawMessage Z) := firstn 5 majority_messages.

(** A building without inhabitants, alone on its link. *)
Definition vacant_buildings : list (@Building Z) :=
  [mkBuilding "Main 1" 0 0 0%Z (Some 0%Z) (Some 0%Z)].

(** An events table of one row, and one of two rows that share the
    message 3. *)
Definition one_event : GeoDataFrame Event :=
  mkGeo [mkEvent "0_noise" global "0_global_0" 1 (Fin (1 # 2)) NaN "1, 2, 3"]
        (Some 4326%Z).

Definition event_pair : GeoDataFrame Event :=
  mkGeo [mkEvent "0_noise" global "0_global_0" 1 (Fin (1 # 2)) NaN "1, 2, 3";
         mkEvent "0_noise" building "0_building_7" 1 (Fin (1 # 2)) NaN "3, 4"]
        (Some 4326%Z).

(** A clustering model whose [fit_transform] raises, and one whose
    refinement pass raises ValueError. *)
Definition failing_model (e : exn) : TopicModel :=
  mkTopicModel (fun _ => Raise e) (fun _ topics => Ok topics) (fun _ _ => Ok tt)
    Demo.topic_info.

Definition unrefinable_model : TopicModel :=
  mkTopicModel (fit_transform (Demo.create_model 5))
    (fun _ _ => Raise ValueError) (fun _ _ => Ok tt) Demo.topic_info.

(** The files of a town of two buildings and four edges.  A geometry is a
    cell; the cell of a WKT string is its length, the representative
    point of some cells is the first of them, a buffer keeps the cell,
    and the link nearest to any cell is the first link. *)
Definition loads (wkt : string) : Z := Z.of_nat (String.length wkt).
Definition representative_point (cells : list Z) : Z := hd 0%Z cells.
Definition buffer (g : Z) : Z := g.
Definition nearest (g : Z) (links : list (@Link Z)) : list Link := firstn 1 links.

Definition graph_edges (city_name : string) (city_crs : Z) : list (@Edge Z) :=
  [mkEdge (name_str "Main") 50%Z; mkEdge (name_list ["Main"; "Side"]) 51%Z;
   mkEdge name_nan 52%Z; mkEdge (name_str "Main") 53%Z].

(** Eight messages; those with an even id have a geometry, in cell 13. *)
Definition messages_file : list CsvRow :=
  map (fun i => mkCsvRow (Some ("leak " +:+ str_Z i))
                  (if Z.even i then Some "POINT (30 60)" else None)
                  (i * 86400)%Z i "ЖКХ")
      (Demo.ids 1 8).

Definition population_file : list (@FileBuilding Z) :=
  [mkFileBuilding "Main 1" 40 13%Z; mkFileBuilding "Main 2" 60 14%Z].

Abbreviation file_links :=
  (_get_roads_rows buffer Demo.transform 32636 (graph_edges "City" 32636)).

Abbreviation file_buildings :=
  (_get_buildings_rows Demo.transform nearest 4326 population_file file_links).

(** The same town with two streets, the first of them without a name. *)
Definition lane_edges (city_name : string) (city_crs : Z) : list (@Edge Z) :=
  [mkEdge name_nan 50%Z; mkEdge (name_str "Main") 51%Z].

Abbreviation lane_links :=
  (_get_roads_rows buffer Demo.transform 32636 (lane_edges "City" 32636)).

Abbreviation lane_buildings :=
  (_get_buildings_rows Demo.transform nearest 4326 population_file lane_links).

Abbreviation lane_messages :=
  (rows (_preprocess Demo.intersects
           (mkGeo (_read_data_rows loads representative_point messages_file)
                  (Some 4326%Z))
           lane_buildings lane_links)).

Abbreviation run_files min_event_size :=
  (run_from_files Demo.intersects loads representative_point buffer
     Demo.transform nearest graph_edges messages_file population_file 4326
     Demo.create_model "City" 32636 min_event_size).

End Cases.

(** * Properties *)

(** ** Rebalancing one event *)

Lemma index_of_levels (l : Level) : index_of l levels = Ok (level_rank l).
Proof. destruct l; reflexivity. Qed.

Lemma level_isin_to_account (x l : Level) :
  level_isin x (levels_to_account l) = finer x l.
Proof. destruct x, l; reflexivity. Qed.

Lemma str_isin_map_b (connections : list Connection) (s t : string) :
  str_isin t (map b (filter (fun c => String.eqb (a c) s) connections))
  = existsb (fun c => String.eqb (a c) s && String.eqb (b c) t) connections.
Proof.
  unfold str_isin.
  induction connections as [|c cs IH]; simpl; [reflexivity|].
  destruct (String.eqb (a c) s) eqn:Ha; simpl; rewrite IH;
    [rewrite (String.eqb_sym t (b c))|]; reflexivity.
Qed.

Lemma accounted_spec {float_ops : Float64} (connections : list Connection)
  (events : list EventRow) (e : EventRow) :
  accounted events (map b (out_connections connections e))
    (levels_to_account (e_level e))
  = fsum (out_populations connections events e).
Proof.
  unfold accounted, out_populations, out_connections.
  do 2 f_equal. apply filter_ext. intros x.
  rewrite str_isin_map_b, level_isin_to_account. reflexivity.
Qed.


(** The road event of the example keeps 150 of its 200. *)
Example rebalance_road_150 :
  _rebalance Demo.one_connection Demo.two_events (levels_to_account road)
    200 "0_road_4" = 150%Q.
Proof. vm_compute. reflexivity. Qed.

(** ** The result monad *)

Lemma bind_Ok {A B} (r : result A) (k : A -> result B) (y : B) :
  r ≫= k = Ok y -> exists x, r = Ok x /\ k x = Ok y.
Proof. destruct r as [x|e]; simpl; [eauto | discriminate]. Qed.

Ltac inv_bind H :=
  let x := fresh "x" in
  let Hx := fresh "H" x in
  apply bind_Ok in H; destruct H as (x & Hx & H).

Lemma mapM_Ok {A B} (f : A -> result B) (l : list A) (ys : list B) :
  mapM f l = Ok ys -> Forall2 (fun x y => f x = Ok y) l ys.
Proof.
  revert ys. induction l as [|x l IH]; intros ys H; simpl in H.
  - injection H as <-. constructor.
  - inv_bind H. inv_bind H. injection H as <-. constructor; auto.
Qed.

Lemma set_crs_Ok {A} (g g' : GeoDataFrame A) (c : Z) :
  set_crs g c = Ok g' -> rows g' = rows g /\ crs g' = Some c.
Proof.
  unfold set_crs. destruct (crs g) as [c'|] eqn:Hc.
  - destruct (Z.eqb_spec c' c) as [->|]; [|discriminate].
    intros [= <-]. auto.
  - intros [= <-]. auto.
Qed.

(** ** Min-max normalization *)

Lemma somes_In {A} (col : list (option A)) (x : A) :
  In x (somes col) <-> In (Some x) col.
Proof.
  unfold somes. rewrite in_flat_map. split.
  - intros ([y|] & Hy & Hx); simpl in Hx; [|contradiction].
    destruct Hx as [->|[]]. exact Hy.
  - intros Hx. exists (Some x). simpl. auto.
Qed.

Lemma fold_min_spec (x : Z) (xs : list Z) :
  In (fold_right Z.min x xs) (x :: xs)
  /\ forall y, In y (x :: xs) -> (fold_right Z.min x xs <= y)%Z.
Proof.
  induction xs as [|z zs [IHin IHle]]; simpl.
  - split; [auto|]. intros y [->|[]]. lia.
  - split.
    + destruct (Z.min_spec z (fold_right Z.min x zs)) as [[_ Heq]|[_ Heq]];
        rewrite Heq.
      * right. left. reflexivity.
      * destruct IHin as [Hx|Hin]; [left; exact Hx | right; right; exact Hin].
    + intros y [->|[->|Hy]].
      * specialize (IHle y (or_introl eq_refl)). lia.
      * lia.
      * specialize (IHle y (or_intror Hy)). lia.
Qed.

Lemma fold_max_spec (x : Z) (xs : list Z) :
  In (fold_right Z.max x xs) (x :: xs)
  /\ forall y, In y (x :: xs) -> (y <= fold_right Z.max x xs)%Z.
Proof.
  induction xs as [|z zs [IHin IHle]]; simpl.
  - split; [auto|]. intros y [->|[]]. lia.
  - split.
    + destruct (Z.max_spec z (fold_right Z.max x zs)) as [[_ Heq]|[_ Heq]];
        rewrite Heq.
      * destruct IHin as [Hx|Hin]; [left; exact Hx | right; right; exact Hin].
      * right. left. reflexivity.
    + intros y [->|[->|Hy]].
      * specialize (IHle y (or_introl eq_refl)). lia.
      * lia.
      * specialize (IHle y (or_intror Hy)). lia.
Qed.

(** The smallest and the largest value of a column that has a value. *)
Lemma col_min_max (col : list (option Z)) (x : Z) :
  In (Some x) col ->
  exists lo hi,
    col_min col = Some lo /\ col_max col = Some hi
    /\ In (Some lo) col /\ In (Some hi) col
    /\ forall y, In (Some y) col -> (lo <= y <= hi)%Z.
Proof.
  intros Hx. apply somes_In in Hx. unfold col_min, col_max.
  destruct (somes col) as [|z zs] eqn:Hs; [contradiction|].
  destruct (fold_min_spec z zs) as [Hlo Hle].
  destruct (fold_max_spec z zs) as [Hhi Hge].
  exists (fold_right Z.min z zs), (fold_right Z.max z zs).
  rewrite <- Hs in Hlo, Hhi. apply somes_In in Hlo, Hhi.
  repeat split; auto.
  - apply Hle. rewrite <- Hs. apply somes_In. assumption.
  - apply Hge. rewrite <- Hs. apply somes_In. assumption.
Qed.

Lemma pd_div_unit (n d : Z) :
  (0 <= n <= d)%Z -> (0 < d)%Z ->
  exists q, pd_div n d = Fin q /\ (0 <= q <= 1)%Q
            /\ (n = 0%Z -> Qeq_bool q 0 = true)
            /\ (n = d -> Qeq_bool q 1 = true).
Proof.
  intros Hn Hd. unfold pd_div.
  destruct (Z.eqb_spec d 0) as [->|_]; [lia|].
  exists (inject_Z n / inject_Z d)%Q. split; [reflexivity|].
  destruct d as [|p|p]; try lia.
  repeat split; try (intros ->; apply Qeq_bool_iff);
    unfold Qeq, Qle, Qdiv, Qinv, Qmult, inject_Z; simpl;
    rewrite ?Pos.mul_1_l; lia.
Qed.

Theorem min_max_normalize_spec (col : list (option Z)) :
  min_max_spec col (min_max_normalize col).
Proof.
  unfold min_max_spec, min_max_normalize. split.
  - intros (x & y & Hx & Hy & Hxy).
    destruct (col_min_max col x Hx) as (lo & hi & Hmin & Hmax & Hlo & Hhi & Hrange).
    rewrite Hmin, Hmax.
    assert (Hlt : (lo < hi)%Z)
      by (pose proof (Hrange x Hx); pose proof (Hrange y Hy); lia).
    split; [|split].
    + destruct (pd_div_unit (lo - lo) (hi - lo)) as (q & Hq & _ & Hz & _);
        [lia | lia |].
      exists (Fin q). split.
      * apply in_map_iff. exists (Some lo). rewrite Hq. auto.
      * simpl. apply Hz. lia.
    + destruct (pd_div_unit (hi - lo) (hi - lo)) as (q & Hq & _ & _ & Ho);
        [lia | lia |].
      exists (Fin q). split.
      * apply in_map_iff. exists (Some hi). rewrite Hq. auto.
      * simpl. apply Ho. reflexivity.
    + intros v Hv. apply in_map_iff in Hv. destruct Hv as ([z|] & <- & Hz); auto.
      pose proof (Hrange z Hz).
      destruct (pd_div_unit (z - lo) (hi - lo)) as (q & Hq & Hu & _);
        [lia | lia |].
      right. exists q. auto.
  - intros Hsame v Hv. apply in_map_iff in Hv.
    destruct Hv as ([z|] & <- & Hz); [|reflexivity].
    destruct (col_min_max col z Hz) as (lo & hi & -> & -> & Hlo & Hhi & _).
    rewrite (Hsame lo z Hlo Hz), (Hsame hi z Hhi Hz).
    unfold pd_div. rewrite Z.sub_diag. reflexivity.
Qed.

(** C3, as the code has it: min-max normalization runs over all the
    extracted events, before outlier filtering.  In the intensity column
    and in the duration column alike, when two values of the column
    differ, every normalized value is NaN (for a missing duration) or
    between 0 and 1, and both 0 and 1 occur; when all values of the column
    are equal, every normalized value is NaN. *)
Theorem normalized_columns (events : list EventRow) :
  min_max_spec (map (fun e => Some (e_Count e)) events) (intensity_column events)
  /\ min_max_spec (map e_duration events) (duration_column events).
Proof. split; apply min_max_normalize_spec. Qed.

(** ** The mode of a column *)

Lemma unique_In {A} (eqb : A -> A -> bool) (l : list A) (x : A) :
  (forall u v, eqb u v = true <-> u = v) ->
  In x (unique eqb l) <-> In x l.
Proof.
  intros Heqb. induction l as [|y l IH]; simpl; [tauto|].
  rewrite filter_In, IH. split.
  - intros [->|[Hx _]]; auto.
  - intros [->|Hx]; auto.
    destruct (eqb y x) eqn:Hyx.
    + left. apply Heqb. exact Hyx.
    + right. auto.
Qed.

Lemma unique_NoDup {A} (eqb : A -> A -> bool) (l : list A) :
  (forall u v, eqb u v = true <-> u = v) ->
  NoDup (unique eqb l).
Proof.
  intros Heqb. induction l as [|y l IH]; simpl; constructor.
  - rewrite filter_In. intros [_ Hy].
    rewrite (proj2 (Heqb y y) eq_refl) in Hy. discriminate.
  - apply NoDup_filter. exact IH.
Qed.

Lemma le_fold_max {A} (f : A -> nat) (l : list A) (c : A) :
  In c l -> f c <= fold_right Nat.max 0 (map f l).
Proof.
  induction l as [|x xs IH]; simpl; [tauto|].
  intros [->|Hc]; [lia|]. specialize (IH Hc). lia.
Qed.

Lemma fold_max_attained {A} (f : A -> nat) (l : list A) :
  l <> [] -> exists c, In c l /\ f c = fold_right Nat.max 0 (map f l).
Proof.
  induction l as [|x xs IH]; [congruence|]. intros _.
  destruct xs as [|y ys].
  - exists x. simpl. split; [auto | lia].
  - destruct IH as (c & Hc & Heq); [discriminate|].
    destruct (Nat.max_spec (f x) (fold_right Nat.max 0 (map f (y :: ys))))
      as [[_ Hmax]|[_ Hmax]].
    + exists c. split; [right; exact Hc|].
      change (f c = Nat.max (f x) (fold_right Nat.max 0 (map f (y :: ys)))).
      rewrite Hmax. exact Heq.
    + exists x. split; [left; reflexivity|].
      change (f x = Nat.max (f x) (fold_right Nat.max 0 (map f (y :: ys)))).
      rewrite Hmax. reflexivity.
Qed.

Lemma count_notin (c : string) (l : list string) : ~ In c l -> count c l = 0.
Proof.
  unfold count. induction l as [|x xs IH]; [reflexivity|].
  intros Hc. simpl. destruct (String.eqb_spec c x) as [->|_].
  - exfalso. apply Hc. left. reflexivity.
  - apply IH. intros H. apply Hc. right. exact H.
Qed.

Lemma count_le_max (c : string) (l : list string) :
  count c l <= max_count l.
Proof.
  destruct (in_dec string_dec c l) as [Hc|Hc].
  - apply (le_fold_max (fun c => count c l)), Hc.
  - rewrite (count_notin _ _ Hc). lia.
Qed.

Lemma max_count_attained (l : list string) :
  l <> [] -> exists c, In c l /\ count c l = max_count l.
Proof. apply (fold_max_attained (fun c => count c l)). Qed.

Lemma mode_In (l : list string) (c : string) :
  In c (mode l) <-> In c l /\ forall c', count c' l <= count c l.
Proof.
  unfold mode.
  assert (Hperm := StringSort.Permuted_sort
            (unique String.eqb (filter (fun c => count c l =? max_count l) l))).
  split.
  - intros Hc. apply (Permutation_in _ (Permutation_sym Hperm)) in Hc.
    apply (unique_In _ _ _ String.eqb_eq), filter_In in Hc.
    destruct Hc as [Hc Hmax]. apply Nat.eqb_eq in Hmax.
    split; [exact Hc|]. intros c'. rewrite Hmax. apply count_le_max.
  - intros [Hc Hmax]. apply (Permutation_in _ Hperm).
    apply (unique_In _ _ _ String.eqb_eq), filter_In.
    split; [exact Hc|]. apply Nat.eqb_eq.
    destruct (max_count_attained l) as (c0 & _ & Hc0); [intros ->; contradiction|].
    apply Nat.le_antisymm; [apply count_le_max | rewrite <- Hc0; apply Hmax].
Qed.

Lemma mode_NoDup (l : list string) : NoDup (mode l).
Proof.
  unfold mode.
  eapply Permutation_NoDup; [apply StringSort.Permuted_sort|].
  apply unique_NoDup, String.eqb_eq.
Qed.

Lemma NoDup_all_same {A} (l : list A) (c : A) :
  NoDup l -> In c l -> (forall x, In x l -> x = c) -> l = [c].
Proof.
  intros Hnd Hc Hall. destruct l as [|x [|y l]]; [contradiction| |].
  - rewrite (Hall x); simpl; auto.
  - exfalso. inversion Hnd as [|? ? Hx _]; subst. apply Hx.
    rewrite (Hall x), (Hall y); simpl; auto.
Qed.

Section Properties.

Context {geometry : Type} {float_ops : Float64}.
Variable intersects : geometry -> geometry -> bool.
Variable transform : Z -> Z -> geometry -> geometry.
Variable messages_csv : list (@RawMessage geometry).
Variable _get_roads : string -> Z -> list (@Link geometry).
Variable _get_buildings : list (@Link geometry) -> list (@Building geometry).
Variable _create_model : Z -> TopicModel.

(** ** Preprocessing *)

(** C8: every preprocessed message has [global_id] 0; and a row of the
    joined table that keeps its text yields a message whose link (road) is
    the one of the direct spatial join whenever both that one and the one
    inherited from the building exist. *)
Theorem preprocess_ids (messages : GeoDataFrame RawMessage)
  (buildings : list Building) (links : list Link) :
  (forall m, In m (rows (_preprocess intersects messages buildings links)) ->
             global_id m = 0%Z)
  /\ (forall r text,
        In r (joined intersects (rows messages) buildings links) ->
        raw_text (j_message r) = Some text ->
        exists m,
          In m (rows (_preprocess intersects messages buildings links))
          /\ preprocess_row r = Some m
          /\ (forall direct inherited,
                j_link_id r = Some direct ->
                j_link_id_from_building r = Some inherited ->
                link_id m = Some direct)
          /\ (forall direct inherited,
                j_road_id r = Some direct ->
                j_road_id_from_building r = Some inherited ->
                road_id m = Some direct)).
Proof.
  split.
  - intros m Hm. simpl in Hm.
    apply list_elem_of_In, list_elem_of_omap in Hm.
    destruct Hm as (r & _ & Hr). unfold preprocess_row in Hr.
    destruct (raw_text (j_message r)); [|discriminate].
    injection Hr as <-. reflexivity.
  - intros r text Hr Htext.
    assert (Hrow : preprocess_row r <> None)
      by (unfold preprocess_row; rewrite Htext; discriminate).
    destruct (preprocess_row r) as [m|] eqn:Hm; [|congruence].
    exists m. split; [|split; [reflexivity|]].
    + simpl. apply list_elem_of_In, list_elem_of_omap.
      exists r. split; [apply list_elem_of_In, Hr | exact Hm].
    + unfold preprocess_row in Hm. rewrite Htext in Hm.
      injection Hm as <-. simpl.
      split; intros direct inherited -> _; reflexivity.
Qed.

(** ** Coordinate reference systems *)

(** C10: whatever [city_crs] is, the connections table [run] returns is
    tagged EPSG:32636 and the events and messages tables EPSG:4326. *)
Theorem run_crs (city_name : string) (city_crs min_event_size : Z)
  (messages : GeoDataFrame OutMessage) (events : GeoDataFrame Event)
  (connections : GeoDataFrame Connection) :
  run intersects transform messages_csv _get_roads _get_buildings _create_model
      city_name city_crs min_event_size
  = Ok (messages, events, connections) ->
  crs connections = Some 32636%Z
  /\ crs events = Some 4326%Z
  /\ crs messages = Some 4326%Z.
Proof.
  unfold run. intros H.
  inv_bind H. inv_bind H. inv_bind H.
  unfold _filter_outliers in H. simpl in H. inv_bind H.
  injection H as <- <- <-.
  split; [|split].
  - unfold _get_event_connections in Hx1.
    destruct (combinations _); [discriminate|].
    destruct (filter _ _); [discriminate|].
    apply set_crs_Ok in Hx1. simpl. apply Hx1.
  - unfold _get_events in Hx0. inv_bind Hx0. inv_bind Hx0.
    injection Hx0 as <-. simpl. apply set_crs_Ok in Hx4. apply Hx4.
  - unfold _prepare_messages, to_crs in Hx2. simpl in Hx2.
    destruct (crs x); [|discriminate]. injection Hx2 as <-. reflexivity.
Qed.

(** ** Potential population *)

Lemma Forall2_In_r {A B} (P : A -> B -> Prop) (l : list A) (l' : list B) (y : B) :
  Forall2 P l l' -> In y l' -> exists x, In x l /\ P x y.
Proof.
  induction 1 as [|x0 y0 l l' Hxy _ IH]; simpl; [tauto|].
  intros [<-|Hy]; [exists x0; auto|].
  destruct (IH Hy) as (x & Hx & HP). exists x; auto.
Qed.

Lemma Forall2_In_l {A B} (P : A -> B -> Prop) (l : list A) (l' : list B) (x : A) :
  Forall2 P l l' -> In x l -> exists y, In y l' /\ P x y.
Proof.
  induction 1 as [|x0 y0 l l' Hxy _ IH]; simpl; [tauto|].
  intros [<-|Hx]; [exists y0; auto|].
  destruct (IH Hx) as (y & Hy & HP). exists y; auto.
Qed.

(** The rows of one call share the potential population and the level that
    [assign_potential_population] computes, and carry the id built from
    the topic, the level of the call and the object. *)
Lemma event_from_object_rows (buildings : list (@Building geometry))
  (messages : list Message) (topic_model : TopicModel) (target_column : Level)
  (population : Level -> gmap Z Q) (object_id : option Z) (event_level : Level)
  (events : list EventRow) :
  _event_from_object buildings messages topic_model target_column population
    object_id event_level = Ok (Some events) ->
  exists pop level,
    assign_potential_population buildings population object_id event_level
    = Ok (pop, level)
    /\ forall e, In e events ->
         potential_population e = pop
         /\ e_level e = level
         /\ e_id e = str_Z (e_Topic e) +:+ "_" +:+ level_str event_level
                       +:+ "_" +:+ str_oid object_id
         /\ exists docs topics info,
              In info (get_topic_info topic_model docs topics)
              /\ e_Name e = Name info /\ e_Topic e = Topic info.
Proof.
  unfold _event_from_object. intros H.
  destruct (5 <=? _); [|discriminate].
  destruct (fit_transform _ _) as [topics0|[]]; try discriminate.
  inv_bind H. destruct x as [topics fitted].
  inv_bind H. destruct x as [pop level].
  inv_bind H. inv_bind H. injection H as <-.
  exists pop, level. split; [exact Hx0|].
  intros e He. apply mapM_Ok in Hx2.
  destruct (Forall2_In_r _ _ _ _ Hx2 He) as (info & Hinfo & Hrow).
  inv_bind Hrow. injection Hrow as <-. simpl.
  repeat split; eauto 10.
Qed.

Lemma dict_get_cases (d : gmap Z Q) (k : option Z) :
  (exists v, dict_get d k = Ok v) \/ dict_get d k = Raise KeyError.
Proof.
  destruct k as [z|]; simpl; [destruct (d !! z)|]; eauto.
Qed.

(** X26: what lines 146 to 161 give the events of a call.  For an object
    of level global or road: population 1.  For an object of level link
    or building: when no building names a parent object at the next level
    up, the IndexError is caught, the events are filed under [global] and
    get population 1; otherwise the events keep their level, and their
    population is [pop[level][object_id] / pop[parent_level][parent_id]],
    or 1 when the ZeroDivisionError of a zero denominator is caught; a
    missing entry of either dict is a KeyError that nothing catches.
    Every row of a returned table carries that population and level. *)
Theorem potential_population_assignment (buildings : list (@Building geometry))
  (population : Level -> gmap Z Q) (object_id : option Z) (event_level : Level) :
  let assigned :=
    assign_potential_population buildings population object_id event_level in
  match event_level with
  | global | road => assigned = Ok (1%Q, event_level)
  | link | building =>
      match parents_of buildings event_level object_id with
      | [] => assigned = Ok (1%Q, global)
      | parent_id :: _ =>
          forall higher, parent_level event_level = Some higher ->
          match dict_get (population event_level) object_id,
                dict_get (population higher) parent_id with
          | Ok p, Ok q =>
              assigned
              = Ok (if Qeq_bool q 0 then 1%Q else (p / q)%Q, event_level)
          | _, _ => assigned = Raise KeyError
          end
      end
  end
  /\ forall messages topic_model target_column events e,
       _event_from_object buildings messages topic_model target_column
         population object_id event_level = Ok (Some events) ->
       In e events ->
       assigned = Ok (potential_population e, e_level e).
Proof.
  intros assigned. split.
  - subst assigned. unfold assign_potential_population.
    destruct event_level; simpl; try reflexivity.
    + destruct (unique _ _) as [|parent_id ps]; simpl; [reflexivity|].
      intros higher [= <-].
      destruct (dict_get_cases (population building) object_id) as [[p Hp]|Hp];
        rewrite Hp; simpl; [|reflexivity].
      destruct (dict_get_cases (population link) parent_id) as [[q Hq]|Hq];
        rewrite Hq; simpl; [|reflexivity].
      unfold py_div. destruct (Qeq_bool q 0); reflexivity.
    + destruct (unique _ _) as [|parent_id ps]; simpl; [reflexivity|].
      intros higher [= <-].
      destruct (dict_get_cases (population link) object_id) as [[p Hp]|Hp];
        rewrite Hp; simpl; [|reflexivity].
      destruct (dict_get_cases (population road) parent_id) as [[q Hq]|Hq];
        rewrite Hq; simpl; [|reflexivity].
      unfold py_div. destruct (Qeq_bool q 0); reflexivity.
  - intros messages topic_model target_column events e H He.
    destruct (event_from_object_rows _ _ _ _ _ _ _ _ H)
      as (pop & lvl & Hpop & Hrows).
    destruct (Hrows e He) as (-> & -> & _). exact Hpop.
Qed.

(** ** The size gate of event extraction *)


(** ** The tables of a run *)

Local Abbreviation run_ := (run intersects transform messages_csv _get_roads
                          _get_buildings _create_model).
Local Abbreviation extracted_in_run_ :=
  (extracted_in_run intersects messages_csv _get_roads _get_buildings
     _create_model).
Local Abbreviation detected_events_ :=
  (detected_events intersects messages_csv _get_roads _get_buildings
     _create_model).
Local Abbreviation detected_connections_ :=
  (detected_connections intersects messages_csv _get_roads _get_buildings
     _create_model).

Lemma extracted_events_rows (messages : list Message)
  (buildings : list (@Building geometry)) (min_event_size : Z)
  (events : list EventRow) (e : EventRow) :
  extracted_events _create_model messages buildings min_event_size = Ok events ->
  In e events ->
  exists level object_id table,
    _event_from_object buildings messages (_create_model min_event_size) level
      (_collect_population buildings) object_id level = Ok (Some table)
    /\ In e table.
Proof.
  unfold extracted_events. intros H He. inv_bind H.
  destruct (omap _ _) as [|t ts] eqn:Htables; [discriminate|].
  injection H as <-. change (In e (concat (t :: ts))) in He.
  apply in_concat in He. destruct He as (table & Htable & He).
  rewrite <- Htables in Htable.
  apply list_elem_of_In, list_elem_of_omap in Htable.
  destruct Htable as (item & Hitem & ->).
  apply list_elem_of_In, in_concat in Hitem.
  destruct Hitem as (sub & Hsub & Hitem).
  apply mapM_Ok in Hx.
  destruct (Forall2_In_r _ _ _ _ Hx Hsub) as (level & _ & Hlevel).
  apply mapM_Ok in Hlevel.
  destruct (Forall2_In_r _ _ _ _ Hlevel Hitem) as (oid & _ & Hoid).
  exists level, oid, table. auto.
Qed.

Lemma final_events_In (events : list EventRow) (intensity duration : list pdfloat)
  (ev : Event) :
  In ev (final_events events intensity duration) ->
  exists x i d, In x events /\ ev = final_event x i d.
Proof.
  revert intensity duration.
  induction events as [|x xs IH]; intros [|i il] [|d dl]; simpl; try tauto.
  intros [<-|Hev].
  - exists x, i, d. auto.
  - destruct (IH _ _ Hev) as (x' & i' & d' & Hx' & ->). exists x', i', d'. auto.
Qed.

Lemma detected_events_rows (city_name : string) (city_crs min_event_size : Z)
  (detected : GeoDataFrame Event) :
  detected_events_ city_name city_crs min_event_size = Ok detected ->
  exists events,
    extracted_in_run_ city_name city_crs min_event_size = Ok events
    /\ rows detected
       = final_events events (intensity_column events) (duration_column events).
Proof.
  unfold detected_events, extracted_in_run. intros H. inv_bind H.
  rewrite Hx. simpl. unfold _get_events in H. inv_bind H. inv_bind H.
  injection H as <-. apply set_crs_Ok in Hx1. destruct Hx1 as [Hrows _].
  simpl in Hrows. rewrite Hrows. exists x0. auto.
Qed.

Lemma run_tables (city_name : string) (city_crs min_event_size : Z)
  (messages : GeoDataFrame OutMessage) (events : GeoDataFrame Event)
  (connections : GeoDataFrame Connection) :
  run_ city_name city_crs min_event_size = Ok (messages, events, connections) ->
  exists detected found,
    detected_events_ city_name city_crs min_event_size = Ok detected
    /\ detected_connections_ city_name city_crs min_event_size = Ok found
    /\ (events, connections) = _filter_outliers detected found.
Proof.
  unfold run, detected_connections, detected_events. intros H. inv_bind H.
  rewrite Hx. simpl. inv_bind H. inv_bind H.
  destruct (_filter_outliers x0 x1) as [evs conns] eqn:Hf.
  inv_bind H. injection H as _ <- <-.
  exists x0, x1. rewrite Hx0. simpl. auto.
Qed.

Lemma run_events_extracted (city_name : string) (city_crs min_event_size : Z)
  (messages : GeoDataFrame OutMessage) (events : GeoDataFrame Event)
  (connections : GeoDataFrame Connection) :
  run_ city_name city_crs min_event_size = Ok (messages, events, connections) ->
  exists detected found extracted,
    detected_events_ city_name city_crs min_event_size = Ok detected
    /\ detected_connections_ city_name city_crs min_event_size = Ok found
    /\ extracted_in_run_ city_name city_crs min_event_size = Ok extracted
    /\ rows events = filter (fun e => negb (is_outlier (name e))) (rows detected)
    /\ rows connections
       = filter (fun c => negb (is_outlier (b c)))
           (filter (fun c => negb (is_outlier (a c))) (rows found))
    /\ forall e, In e (rows detected) ->
                 exists x i d, In x extracted /\ e = final_event x i d.
Proof.
  intros H. destruct (run_tables _ _ _ _ _ _ H) as (detected & found & Hd & Hc & Hf).
  destruct (detected_events_rows _ _ _ _ Hd) as (extracted & Hx & Hrows).
  exists detected, found, extracted.
  unfold _filter_outliers in Hf. injection Hf as -> ->.
  repeat split; auto.
  intros e He. rewrite Hrows in He. apply final_events_In in He. exact He.
Qed.

(** ** Population of the returned events *)

(** C2 fails on the code: [run] never calls [_rebalance_events].  The
    population of every event of the table it returns is the potential
    population the extraction assigned to it, for the same id and level,
    neither rebalanced nor truncated. *)
Theorem run_population_is_potential (city_name : string)
  (city_crs min_event_size : Z) (messages : GeoDataFrame OutMessage)
  (events : GeoDataFrame Event) (connections : GeoDataFrame Connection) :
  run_ city_name city_crs min_event_size = Ok (messages, events, connections) ->
  exists extracted,
    extracted_in_run_ city_name city_crs min_event_size = Ok extracted
    /\ forall e, In e (rows events) ->
         exists x, In x extracted
                   /\ id e = e_id x
                   /\ level e = e_level x
                   /\ population e = potential_population x.
Proof.
  intros H.
  destruct (run_events_extracted _ _ _ _ _ _ H)
    as (detected & found & extracted & _ & _ & Hx & Hev & _ & Hfinal).
  exists extracted. split; [exact Hx|].
  intros e He. rewrite Hev in He. apply filter_In in He. destruct He as [He _].
  destruct (Hfinal e He) as (x & i & d & Hin & ->).
  exists x. simpl. auto.
Qed.

(** ** Outlier filtering *)

Lemma outlier_by_label (t x y : string) :
  is_outlier (t +:+ "_" +:+ x) = is_outlier (t +:+ "_" +:+ y).
Proof.
  unfold is_outlier.
  assert (Hcons : forall c s r, String c s +:+ r = String c (s +:+ r))
    by reflexivity.
  assert (Hnil : forall s, String.prefix "" s = true)
    by (intros [|c s]; reflexivity).
  destruct t as [|c1 [|c2 t]]; rewrite ?Hcons; cbn -[ascii_dec String.append];
    rewrite ?Hnil; reflexivity.
Qed.

(** The name and the id of an extracted event begin with the same topic
    label when the clustering model names its topics by their label. *)
Lemma extracted_outlier_id (messages : list Message)
  (buildings : list (@Building geometry)) (min_event_size : Z)
  (events : list EventRow) (x : EventRow) :
  (forall k docs topics info,
     In info (get_topic_info (_create_model k) docs topics) ->
     exists words, Name info = str_Z (Topic info) +:+ "_" +:+ words) ->
  extracted_events _create_model messages buildings min_event_size = Ok events ->
  In x events ->
  is_outlier (e_Name x) = is_outlier (e_id x).
Proof.
  intros Hnames H Hx.
  destruct (extracted_events_rows _ _ _ _ _ H Hx) as (lvl & oid & table & Ht & Hin).
  destruct (event_from_object_rows _ _ _ _ _ _ _ _ Ht) as (pop & l' & _ & Hrows).
  destruct (Hrows x Hin) as (_ & _ & Hid & docs & topics & info & Hinfo & Hn & Htopic).
  destruct (Hnames _ _ _ _ Hinfo) as (words & Hwords).
  rewrite Hid, Hn, Hwords, Htopic. apply outlier_by_label.
Qed.

(** C7: no event of the returned table has a name that begins with the
    noise label [-1], and no returned connection has, as [a] or as [b],
    the id of an event that the filter removed.  The clustering model is
    taken to name a topic by its label, an underscore and its words. *)
Theorem run_drops_outliers (city_name : string) (city_crs min_event_size : Z)
  (messages : GeoDataFrame OutMessage) (events : GeoDataFrame Event)
  (connections : GeoDataFrame Connection) :
  (forall k docs topics info,
     In info (get_topic_info (_create_model k) docs topics) ->
     exists words, Name info = str_Z (Topic info) +:+ "_" +:+ words) ->
  run_ city_name city_crs min_event_size = Ok (messages, events, connections) ->
  (forall e, In e (rows events) -> String.prefix "-1" (name e) = false)
  /\ exists detected,
       detected_events_ city_name city_crs min_event_size = Ok detected
       /\ forall c e,
            In c (rows connections) ->
            In e (rows detected) -> ~ In e (rows events) ->
            a c <> id e /\ b c <> id e.
Proof.
  intros Hnames H.
  destruct (run_events_extracted _ _ _ _ _ _ H)
    as (detected & found & extracted & Hd & _ & Hx & Hev & Hconn & Hfinal).
  split.
  - intros e He. rewrite Hev in He. apply filter_In in He.
    destruct He as [_ He]. apply negb_true_iff in He. exact He.
  - exists detected. split; [exact Hd|].
    intros c e Hc He Hgone.
    assert (Hname : is_outlier (name e) = true).
    { destruct (is_outlier (name e)) eqn:Hn; [reflexivity|].
      exfalso. apply Hgone. rewrite Hev. apply filter_In.
      rewrite Hn. auto. }
    destruct (Hfinal e He) as (x & i & d & Hin & ->). simpl in Hname |- *.
    assert (Hid : is_outlier (e_id x) = true).
    { unfold extracted_in_run in Hx. inv_bind Hx.
      rewrite <- (extracted_outlier_id _ _ _ _ _ Hnames Hx Hin). exact Hname. }
    rewrite Hconn in Hc. apply filter_In in Hc. destruct Hc as [Hc Hb].
    apply filter_In in Hc. destruct Hc as [_ Ha].
    apply negb_true_iff in Ha, Hb.
    split; intros Heq; rewrite Heq in *; congruence.
Qed.

(** ** Category of an event *)

(** The category of a row is the category of its member ids. *)
Lemma event_from_object_category (buildings : list (@Building geometry))
  (messages : list Message) (topic_model : TopicModel) (target_column : Level)
  (population : Level -> gmap Z Q) (object_id : option Z) (event_level : Level)
  (events : list EventRow) (e : EventRow) :
  _event_from_object buildings messages topic_model target_column population
    object_id event_level = Ok (Some events) ->
  In e events ->
  e_category e = category messages (e_message_ids e).
Proof.
  unfold _event_from_object. intros H He.
  destruct (5 <=? _); [|discriminate].
  destruct (fit_transform _ _) as [topics0|[]]; try discriminate.
  inv_bind H. destruct x as [topics fitted].
  inv_bind H. destruct x as [pop level].
  inv_bind H. inv_bind H. injection H as <-.
  apply mapM_Ok in Hx2.
  destruct (Forall2_In_r _ _ _ _ Hx2 He) as (info & Hinfo & Hrow).
  inv_bind Hrow. injection Hrow as <-. reflexivity.
Qed.

(** C9, as the code has it: the category of every extracted event is the
    [", "]-joined list of the modes of its members' categories: the list
    holds exactly the categories whose count is the largest, each once, in
    increasing order.  When one category occurs more often than every
    other, the category of the event is that category. *)
Theorem category_is_joined_modes (messages : list (@Message geometry))
  (buildings : list Building) (min_event_size : Z)
  (extracted : list EventRow) (e : EventRow) :
  extracted_events _create_model messages buildings min_event_size
  = Ok extracted ->
  In e extracted ->
  let member_cats :=
    map cats (filter (fun m => isin (message_id m) (e_message_ids e)) messages) in
  e_category e = join ", " (mode member_cats)
  /\ (forall c, In c (mode member_cats) <->
                In c member_cats
                /\ forall c', count c' member_cats <= count c member_cats)
  /\ NoDup (mode member_cats)
  /\ Sorted (fun s t => String.leb s t = true) (mode member_cats)
  /\ (forall c, In c member_cats ->
                (forall c', c' <> c -> count c' member_cats < count c member_cats) ->
                e_category e = c).
Proof.
  intros Hx He member_cats.
  destruct (extracted_events_rows _ _ _ _ _ Hx He)
    as (lvl & oid & table & Htable & Hin).
  assert (Hcat : e_category e = join ", " (mode member_cats))
    by exact (event_from_object_category _ _ _ _ _ _ _ _ _ Htable Hin).
  split; [exact Hcat|].
  split; [apply mode_In|]. split; [apply mode_NoDup|]. split.
  - apply StringSort.Sorted_sort.
  - intros c Hc Hmax. rewrite Hcat.
    rewrite (NoDup_all_same (mode member_cats) c); [reflexivity | | |].
    + apply mode_NoDup.
    + apply mode_In. split; [exact Hc|]. intros c'.
      destruct (string_dec c' c) as [->|Hne]; [lia|].
      apply Nat.lt_le_incl, Hmax, Hne.
    + intros c' Hc'. apply mode_In in Hc'. destruct Hc' as [_ Hc'].
      destruct (string_dec c' c) as [->|Hne]; [reflexivity|].
      specialize (Hmax c' Hne). specialize (Hc' c). lia.
Qed.

End Properties.

(** * The small city, run *)

(** ** Connections *)

(** C1 fails on the code: [_get_event_connections] intersects the
    comma-joined id strings that [_get_events] left in [message_ids], so a
    weight counts shared characters.  In the small city the events of
    building 1 (messages 21 to 32) and of building 2 (messages 33 to 40)
    share no message, and [run] returns a connection of weight 10 between
    them. *)
Theorem connection_weight_counts_characters :
  exists messages events connections extracted x y,
    Demo.run Demo.messages40 32636 5 = Ok (messages, events, connections)
    /\ Demo.extracted Demo.messages40 5 = Ok extracted
    /\ In x extracted /\ In y extracted
    /\ e_id x = "0_building_1" /\ e_id y = "0_building_2"
    /\ e_message_ids x = Demo.ids 21 12 /\ e_message_ids y = Demo.ids 33 8
    /\ shared_messages x y = 0
    /\ In (mkConnection 10 "0_building_1" "0_building_2") (rows connections).
Proof.
  do 6 eexists.
  split; [vm_compute; reflexivity|].
  split; [vm_compute; reflexivity|].
  split; [do 4 right; left; reflexivity|].
  split; [do 5 right; left; reflexivity|].
  do 5 (split; [vm_compute; reflexivity|]).
  vm_compute. tauto.
Qed.

(** ** Population *)

(** In the small city [run] returns the event of building 0, a
    finest-level event, with population 40/200, which is no integer; the
    truncated population would be 0. *)
Lemma run_population_not_truncated :
  exists messages events connections e,
    Demo.run Demo.messages40 32636 5 = Ok (messages, events, connections)
    /\ In e (rows events)
    /\ id e = "0_building_0" /\ level e = building
    /\ (population e == 1 # 5)%Q
    /\ astype_int (population e) = 0%Z
    /\ forall z : Z, ~ (population e == inject_Z z)%Q.
Proof.
  do 4 eexists.
  split; [vm_compute; reflexivity|].
  split; [do 3 right; left; reflexivity|].
  do 4 (split; [reflexivity|]).
  unfold Qeq. simpl. intros z. lia.
Qed.

Lemma run_population_is_potential_witness :
  exists messages events connections extracted,
    Demo.run Demo.messages40 32636 5 = Ok (messages, events, connections)
    /\ Demo.extracted Demo.messages40 5 = Ok extracted
    /\ forall e, In e (rows events) ->
         exists x, In x extracted /\ id e = e_id x /\ level e = e_level x
                   /\ population e = potential_population x.
Proof.
  assert (Hrun : {r | Demo.run Demo.messages40 32636 5 = Ok r})
    by (eexists; vm_compute; reflexivity).
  destruct Hrun as [[[messages events] connections] Hrun].
  destruct (run_population_is_potential _ _ _ _ _ _ _ _ _ _ _ _ Hrun)
    as (extracted & Hx & Hpop).
  exists messages, events, connections, extracted.
  split; [exact Hrun | split; [exact Hx | exact Hpop]].
Defined.

(** ** Normalization *)

(** C3 fails on the code.  With [min_event_size] 10 the event of building
    2 is a noise event with the smallest intensity: it takes the
    normalized value 0 and is filtered afterwards, so that the smallest
    normalized intensity of the surviving events is 4/32.  And in a city
    whose events all have intensity 8 and duration 7, every normalized
    value is NaN, not 0. *)
Lemma normalization_counterexample :
  (exists extracted,
     Demo.extracted Demo.messages40 10 = Ok extracted
     /\ map e_Count extracted = [40; 40; 40; 20; 12; 8]%Z
     /\ surviving extracted (intensity_column extracted)
        = [Fin (32 # 32); Fin (32 # 32); Fin (32 # 32); Fin (12 # 32); Fin (4 # 32)]
     /\ ~ attains 0 (surviving extracted (intensity_column extracted)))
  /\ (exists extracted,
        Demo.extracted Demo.messages8 5 = Ok extracted
        /\ map e_Count extracted = [8; 8; 8; 8]%Z
        /\ map e_duration extracted = [Some 7; Some 7; Some 7; Some 7]%Z
        /\ intensity_column extracted = [NaN; NaN; NaN; NaN]
        /\ duration_column extracted = [NaN; NaN; NaN; NaN]
        /\ ~ attains 0 (intensity_column extracted)).
Proof.
  split.
  - eexists. split; [vm_compute; reflexivity|].
    do 2 (split; [vm_compute; reflexivity|]).
    intros (v & Hv & Hz). vm_compute in Hv.
    repeat (destruct Hv as [<-|Hv]; [vm_compute in Hz; discriminate|]).
    contradiction.
  - eexists. split; [vm_compute; reflexivity|].
    do 4 (split; [vm_compute; reflexivity|]).
    intros (v & Hv & Hz). vm_compute in Hv.
    repeat (destruct Hv as [<-|Hv]; [vm_compute in Hz; discriminate|]).
    contradiction.
Qed.

Lemma normalized_columns_witness :
  attains 0 (intensity_column Demo.two_events)
  /\ attains 1 (intensity_column Demo.two_events).
Proof.
  destruct (proj1 (proj1 (normalized_columns Demo.two_events))) as (H0 & H1 & _).
  - exists 9%Z, 5%Z. simpl.
    split; [left; reflexivity|]. split; [right; left; reflexivity|]. discriminate.
  - split; assumption.
Defined.

(** ** The size gate *)



(** ** Potential population *)

(** C5 fails on the code: a street without a name has no road id, so the
    parent of its link is NaN.  The list of parents is not empty, no
    IndexError is raised, and the lookup of NaN in the population of the
    roads is a KeyError that [_event_from_object] does not catch: for the
    link of eight messages no event is filed under [global], the call and
    the run raise. *)
Theorem unnamed_street_raises_key_error :
  map l_road_id Cases.lane_links = [None; Some 0%Z]
  /\ map b_link_id Cases.lane_buildings = [Some 0%Z; Some 0%Z]
  /\ parents_of Cases.lane_buildings link (Some 0%Z) = [None]
  /\ length (filter (fun m => col_eq (link_id m) (Some 0%Z)) Cases.lane_messages)
     = 8
  /\ _event_from_object Cases.lane_buildings Cases.lane_messages
       (Demo.create_model 5) link (_collect_population Cases.lane_buildings)
       (Some 0%Z) link
     = Raise KeyError
  /\ run_from_files Demo.intersects Cases.loads Cases.representative_point
       Cases.buffer Demo.transform Cases.nearest Cases.lane_edges
       Cases.messages_file Cases.population_file 4326 Demo.create_model
       "City" 32636 5
     = Raise KeyError.
Proof.
  repeat split; vm_compute; reflexivity.
Qed.

(** The two recoveries, run: the link 2 of five messages, which no
    building is assigned to, gives an event of level global and
    population 1; the building 0 of eight messages, without inhabitants
    on a link without inhabitants, an event of level building and
    population 1. *)
Lemma potential_population_assignment_witness :
  (exists e,
     _event_from_object Demo.corner_buildings
       (rows (_preprocess Demo.intersects
                (mkGeo Cases.corner_messages (Some 4326%Z))
                Demo.corner_buildings Demo.corner_links))
       (Demo.create_model 5) link (_collect_population Demo.corner_buildings)
       (Some 2%Z) link
     = Ok (Some [e])
     /\ e_id e = "0_link_2" /\ e_level e = global
     /\ potential_population e = 1%Q)
  /\ (exists e,
        _event_from_object Cases.vacant_buildings
          (rows (_preprocess Demo.intersects
                   (mkGeo Demo.messages8 (Some 4326%Z))
                   Cases.vacant_buildings (Demo.get_roads "City" 32636)))
          (Demo.create_model 5) building
          (_collect_population Cases.vacant_buildings) (Some 0%Z) building
        = Ok (Some [e])
        /\ e_id e = "0_building_0" /\ e_level e = building
        /\ potential_population e = 1%Q).
Proof.
  split.
  - assert (H : {e | _event_from_object Demo.corner_buildings
                       (rows (_preprocess Demo.intersects
                                (mkGeo Cases.corner_messages (Some 4326%Z))
                                Demo.corner_buildings Demo.corner_links))
                       (Demo.create_model 5) link
                       (_collect_population Demo.corner_buildings)
                       (Some 2%Z) link
                     = Ok (Some [e]) /\ e_id e = "0_link_2" })
      by (eexists; split; [vm_compute; reflexivity|reflexivity]).
    destruct H as [e [H Hid]]. exists e. split; [exact H|]. split; [exact Hid|].
    destruct (potential_population_assignment Demo.corner_buildings
                (_collect_population Demo.corner_buildings) (Some 2%Z) link)
      as [Hnone Hrows].
    specialize (Hrows _ _ _ _ e H (or_introl eq_refl)).
    change (parents_of Demo.corner_buildings link (Some 2%Z)) with (@nil (option Z))
      in Hnone.
    cbv zeta in Hnone, Hrows. rewrite Hnone in Hrows.
    injection Hrows as <- <-. split; reflexivity.
  - assert (H : {e | _event_from_object Cases.vacant_buildings
                       (rows (_preprocess Demo.intersects
                                (mkGeo Demo.messages8 (Some 4326%Z))
                                Cases.vacant_buildings
                                (Demo.get_roads "City" 32636)))
                       (Demo.create_model 5) building
                       (_collect_population Cases.vacant_buildings)
                       (Some 0%Z) building
                     = Ok (Some [e]) /\ e_id e = "0_building_0" })
      by (eexists; split; [vm_compute; reflexivity|reflexivity]).
    destruct H as [e [H Hid]]. exists e. split; [exact H|]. split; [exact Hid|].
    destruct (potential_population_assignment Cases.vacant_buildings
                (_collect_population Cases.vacant_buildings) (Some 0%Z) building)
      as [Hzero Hrows].
    specialize (Hrows _ _ _ _ e H (or_introl eq_refl)).
    change (parents_of Cases.vacant_buildings building (Some 0%Z))
      with [Some 0%Z] in Hzero.
    cbv zeta in Hzero, Hrows. specialize (Hzero link eq_refl).
    rewrite Hrows in Hzero. vm_compute in Hzero.
    injection Hzero as Hpop Hlevel. split; [exact Hlevel | exact Hpop].
Defined.

(** ** Outliers *)

Lemma demo_topic_names (k : Z) (docs : list string) (topics : list Z)
  (info : TopicInfo) :
  In info (get_topic_info (Demo.create_model k) docs topics) ->
  exists words, Name info = str_Z (Topic info) +:+ "_" +:+ words.
Proof.
  simpl. unfold Demo.topic_info. intros H. apply in_map_iff in H.
  destruct H as (t & <- & _). exists "water_pipe_leak". reflexivity.
Qed.

Lemma run_drops_outliers_witness :
  exists messages events connections,
    Demo.run Demo.messages40 32636 10 = Ok (messages, events, connections)
    /\ map id (rows events)
       = ["0_global_0"; "0_road_0"; "0_link_0"; "0_building_0"; "0_building_1"]
    /\ (forall e, In e (rows events) -> String.prefix "-1" (name e) = false)
    /\ exists detected,
         detected_events Demo.intersects Demo.messages40 Demo.get_roads
           Demo.get_buildings Demo.create_model "City" 32636 10 = Ok detected
         /\ forall c e,
              In c (rows connections) ->
              In e (rows detected) -> ~ In e (rows events) ->
              a c <> id e /\ b c <> id e.
Proof.
  assert (Hrun : {r | Demo.run Demo.messages40 32636 10 = Ok r
                      /\ map id (rows (snd (fst r)))
                         = ["0_global_0"; "0_road_0"; "0_link_0";
                            "0_building_0"; "0_building_1"] })
    by (eexists; split; vm_compute; reflexivity).
  destruct Hrun as [[[messages events] connections] [Hrun Hids]].
  exists messages, events, connections.
  split; [exact Hrun|]. split; [exact Hids|].
  exact (run_drops_outliers _ _ _ _ _ _ _ _ _ _ _ _ demo_topic_names Hrun).
Defined.

(** ** Preprocessing *)

Lemma preprocess_ids_witness :
  exists m,
    In m (rows (_preprocess Demo.intersects
                  (mkGeo [Demo.corner_message] (Some 4326%Z))
                  Demo.corner_buildings Demo.corner_links))
    /\ global_id m = 0%Z
    /\ building_id m = Some 3%Z
    /\ link_id m = Some 2%Z
    /\ road_id m = Some 1%Z.
Proof.
  pose (r := mkJoinedRow Demo.corner_message (Some 3%Z) (Some 2%Z) (Some "Side")
               (Some 1%Z) (Some 0%Z) (Some 0%Z)).
  pose proof (preprocess_ids Demo.intersects
                (mkGeo [Demo.corner_message] (Some 4326%Z))
                Demo.corner_buildings Demo.corner_links) as [Hglobal Hdirect].
  destruct (Hdirect r "pothole") as (m & Hin & Hrow & Hlink & Hroad).
  - vm_compute. left. reflexivity.
  - reflexivity.
  - exists m. split; [exact Hin|]. split; [exact (Hglobal m Hin)|].
    split; [vm_compute in Hrow; injection Hrow as <-; reflexivity|].
    split; [apply (Hlink 2%Z 0%Z) | apply (Hroad 1%Z 0%Z)]; reflexivity.
Defined.

(** ** Category *)

(** C9 fails on the code: the five messages of building 0 have the
    categories Транспорт, Дороги, Транспорт, Дороги, ЖКХ, of which two
    tie; the category of the extracted event is both of them, sorted and
    joined, not the first encountered one. *)
Lemma category_joins_tied_modes :
  exists extracted e,
    extracted_events Demo.create_model (Demo.preprocessed Cases.tied_messages)
      Demo.buildings 5 = Ok extracted
    /\ In e extracted
    /\ e_id e = "0_building_0"
    /\ map cats
         (filter (fun m => isin (message_id m) (e_message_ids e))
            (Demo.preprocessed Cases.tied_messages))
       = ["Транспорт"; "Дороги"; "Транспорт"; "Дороги"; "ЖКХ"]
    /\ e_category e = "Дороги, Транспорт"
    /\ e_category e <> "Транспорт".
Proof.
  do 2 eexists.
  split; [vm_compute; reflexivity|].
  split; [do 3 right; left; reflexivity|].
  split; [reflexivity|].
  split; [vm_compute; reflexivity|].
  split; [vm_compute; reflexivity|].
  vm_compute. discriminate.
Qed.

Lemma category_is_joined_modes_witness :
  exists extracted e,
    extracted_events Demo.create_model
      (Demo.preprocessed Cases.majority_messages) Demo.buildings 5
    = Ok extracted
    /\ In e extracted
    /\ e_id e = "0_building_0"
    /\ e_category e = "ЖКХ".
Proof.
  assert (H : {p | extracted_events Demo.create_model
                     (Demo.preprocessed Cases.majority_messages)
                     Demo.buildings 5 = Ok (fst p)
                   /\ nth_error (fst p) 3 = Some (snd p)
                   /\ e_id (snd p) = "0_building_0"
                   /\ map cats
                        (filter (fun m => isin (message_id m)
                                            (e_message_ids (snd p)))
                           (Demo.preprocessed Cases.majority_messages))
                      = ["Транспорт"; "Дороги"; "Транспорт"; "Дороги";
                         "ЖКХ"; "ЖКХ"; "ЖКХ"] }).
  { refine (exist _ (_, _) _). cbn [fst snd].
    split; [vm_compute; reflexivity|]. split; [reflexivity|].
    split; [reflexivity|]. vm_compute. reflexivity. }
  destruct H as [[extracted e] (H & He & Hid & Hcats)]. cbn [fst snd] in *.
  apply nth_error_In in He.
  exists extracted, e. split; [exact H|]. split; [exact He|].
  split; [exact Hid|].
  destruct (category_is_joined_modes Demo.create_model _ _ _ _ e H He)
    as (_ & _ & _ & _ & Hstrict).
  apply Hstrict; rewrite Hcats.
  - simpl. tauto.
  - intros c' Hne. unfold count. cbn [filter].
    destruct (String.eqb_spec c' "ЖКХ") as [->|_]; [congruence|].
    destruct (String.eqb_spec c' "Транспорт") as [->|_]; [vm_compute; lia|].
    destruct (String.eqb_spec c' "Дороги") as [->|_]; [vm_compute; lia|].
    vm_compute. lia.
Defined.

(** ** Coordinate reference systems *)

Lemma run_crs_witness :
  exists messages events connections,
    Demo.run Demo.messages40 4326 5 = Ok (messages, events, connections)
    /\ crs connections = Some 32636%Z
    /\ crs events = Some 4326%Z
    /\ crs messages = Some 4326%Z.
Proof.
  assert (Hrun : {r | Demo.run Demo.messages40 4326 5 = Ok r})
    by (eexists; vm_compute; reflexivity).
  destruct Hrun as [[[messages events] connections] Hrun].
  exists messages, events, connections.
  split; [exact Hrun|].
  exact (run_crs _ _ _ _ _ _ _ _ _ _ _ _ Hrun).
Defined.

(** * Further properties *)

(** ** Rebalancing *)

Lemma str_isin_map_a (connections : list Connection) (s t : string) :
  str_isin t (map a (filter (fun c => String.eqb (b c) s) connections))
  = existsb (fun c => String.eqb (b c) s && String.eqb (a c) t) connections.
Proof.
  unfold str_isin.
  induction connections as [|c cs IH]; simpl; [reflexivity|].
  destruct (String.eqb (b c) s) eqn:Hb; simpl; rewrite IH;
    [rewrite (String.eqb_sym t (a c))|]; reflexivity.
Qed.

Lemma accounted_back_spec {float_ops : Float64} (connections : list Connection)
  (events : list EventRow) (e : EventRow) :
  accounted events (map a (in_connections connections e))
    (levels_to_account (e_level e))
  = fsum (in_populations connections events e).
Proof.
  unfold accounted, in_populations, in_connections.
  do 2 f_equal. apply filter_ext. intros x.
  rewrite str_isin_map_a, level_isin_to_account. reflexivity.
Qed.

(** X1: the two branches of [_rebalance] for an event [e] that some
    connection leaves ([a == e.id]), the sums and the differences being
    the rounded ones of the code.  When the sum of the populations
    accounted through those connections is at most the population [p] of
    the event, the result is [p] minus that sum.  When it exceeds [p], the
    result is [p] minus the sum of the populations accounted in the
    reverse direction (connections with [b == e.id]), with no guard on
    its sign. *)
Theorem rebalance_fallback {float_ops : Float64} (connections : list Connection)
  (events : list EventRow) (e : EventRow) :
  out_connections connections e <> [] ->
  let p := potential_population e in
  let result :=
    _rebalance connections events (levels_to_account (e_level e)) p (e_id e) in
  ((fsum (out_populations connections events e) <= p)%Q ->
   result = fsub p (fsum (out_populations connections events e)))
  /\ (~ (fsum (out_populations connections events e) <= p)%Q ->
      result = fsub p (fsum (in_populations connections events e))).
Proof.
  intros Hne p result. subst result. unfold _rebalance.
  fold (out_connections connections e). fold (in_connections connections e).
  rewrite accounted_spec, accounted_back_spec.
  destruct (out_connections connections e) as [|c cs]; [congruence|].
  simpl. split.
  - intros Hle. apply Qle_bool_iff in Hle. rewrite Hle. reflexivity.
  - intros Hgt. destruct (Qle_bool _ _) eqn:Hle; [|reflexivity].
    apply Qle_bool_iff in Hle. contradiction.
Qed.




Lemma rebalance_fallback_witness :
  _rebalance Demo.one_connection Demo.two_events (levels_to_account road)
    200 "0_road_4" = 150%Q
  /\ _rebalance Demo.one_connection Cases.crowded_events
       (levels_to_account road) 40 "0_road_4" = 40%Q.
Proof.
  split.
  - refine (eq_trans
              (proj1 (rebalance_fallback Demo.one_connection Demo.two_events
                        Demo.road_event _) _) _).
    + vm_compute. discriminate.
    + vm_compute. discriminate.
    + vm_compute. reflexivity.
  - refine (eq_trans
              (proj2 (rebalance_fallback Demo.one_connection
                        Cases.crowded_events Cases.small_road_event _) _) _).
    + vm_compute. discriminate.
    + vm_compute. intros H. apply H. reflexivity.
    + vm_compute. reflexivity.
Defined.

(** X3: when each of the levels link, road and global has an event,
    [_rebalance_events] returns a table that holds the events of these
    levels, in that order of levels, and no event of level building; the
    population of a row is the truncated result of [_rebalance] with the
    levels strictly finer than the event's. *)
Theorem rebalance_events_rows {float_ops : Float64} (events : list EventRow)
  (connections : list Connection) :
  (forall l, l <> building -> exists x, In x events /\ e_level x = l) ->
  exists out,
    _rebalance_events events connections = Ok out
    /\ map fst out
       = filter (fun e => Level_eqb (e_level e) link) events
         ++ filter (fun e => Level_eqb (e_level e) road) events
         ++ filter (fun e => Level_eqb (e_level e) global) events
    /\ (forall x, In x (map fst out) <-> In x events /\ e_level x <> building)
    /\ (forall x n, In (x, n) out ->
          n = astype_int
                (_rebalance connections events (levels_to_account (e_level x))
                   (potential_population x) (e_id x))).
Proof.
  intros _. eexists. split; [reflexivity|].
  assert (Hfst : forall l lvls,
             map fst
               (map (fun xp : EventRow * Q => (fst xp, astype_int (snd xp)))
                  (map (fun x =>
                          (x, _rebalance connections events lvls
                                (potential_population x) (e_id x))) l)) = l).
  { intros l lvls. rewrite !map_map. simpl. apply map_id. }
  split; [|split].
  - simpl. rewrite app_nil_r, !map_app, !Hfst. reflexivity.
  - intros x. simpl. rewrite app_nil_r, !map_app, !Hfst.
    rewrite !in_app_iff, !filter_In. destruct (e_level x); simpl; intuition congruence.
  - intros x n Hin. simpl in Hin. rewrite app_nil_r, !map_app in Hin.
    rewrite !in_app_iff, !in_map_iff in Hin.
    destruct Hin as [Hin|[Hin|Hin]]; destruct Hin as ([x' q] & H1 & H2);
      apply in_map_iff in H2; destruct H2 as (y & H2 & Hy);
      injection H1 as <- <-; injection H2 as <- <-;
      apply filter_In in Hy; destruct Hy as [_ Hy];
      destruct (e_level y); try discriminate; reflexivity.
Qed.

(** ** Outlier filtering *)

(** X4: filtering outliers twice changes nothing more; and filtering keeps
    the CRS of both tables and adds no row to either. *)
Theorem filter_outliers_idempotent (events : GeoDataFrame Event)
  (connections : GeoDataFrame Connection) :
  let kept := _filter_outliers events connections in
  _filter_outliers (fst kept) (snd kept) = kept
  /\ crs (fst kept) = crs events /\ crs (snd kept) = crs connections
  /\ length (rows (fst kept)) <= length (rows events)
  /\ length (rows (snd kept)) <= length (rows connections).
Proof.
  assert (Hidem : forall A (f : A -> bool) l, filter f (filter f l) = filter f l).
  { intros A f l. induction l as [|x l IH]; simpl; [reflexivity|].
    destruct (f x) eqn:Hx; simpl; rewrite ?Hx, IH; reflexivity. }
  assert (Hcomm : forall A (f g : A -> bool) l,
             filter f (filter g l) = filter g (filter f l)).
  { intros A f g l. induction l as [|x l IH]; simpl; [reflexivity|].
    destruct (f x) eqn:Hf, (g x) eqn:Hg; simpl; rewrite ?Hf, ?Hg, IH; reflexivity. }
  assert (Hlen : forall A (f : A -> bool) l, length (filter f l) <= length l).
  { intros A f l. induction l as [|x l IH]; simpl; [lia|].
    destruct (f x); simpl; lia. }
  unfold _filter_outliers. simpl. repeat split.
  - f_equal; f_equal.
    + apply Hidem.
    + set (fa := fun c => negb (is_outlier (a c))).
      set (fb := fun c => negb (is_outlier (b c))).
      rewrite (Hcomm _ fa fb (filter fa (rows connections))), !Hidem.
      reflexivity.
  - apply Hlen.
  - etransitivity; apply Hlen.
Qed.

(** ** The events table *)

Lemma min_max_normalize_length (col : list (option Z)) :
  length (min_max_normalize col) = length col.
Proof. unfold min_max_normalize. apply length_map. Qed.

Lemma final_events_map (events : list EventRow) (intensity duration : list pdfloat) :
  length intensity = length events -> length duration = length events ->
  map id (final_events events intensity duration) = map e_id events
  /\ map name (final_events events intensity duration) = map e_Name events
  /\ map level (final_events events intensity duration) = map e_level events
  /\ map population (final_events events intensity duration)
     = map potential_population events
  /\ map message_ids (final_events events intensity duration)
     = map (fun x => join ", " (map str_Z (e_message_ids x))) events.
Proof.
  revert intensity duration.
  induction events as [|x xs IH]; intros [|i il] [|d dl]; simpl; try discriminate;
    [auto 10|].
  intros [= Hi] [= Hd]. destruct (IH il dl Hi Hd) as (-> & -> & -> & -> & ->).
  auto 10.
Qed.

Section MoreProperties.

Context {geometry : Type} {float_ops : Float64}.
Variable intersects : geometry -> geometry -> bool.
Variable transform : Z -> Z -> geometry -> geometry.
Variable messages_csv : list (@RawMessage geometry).
Variable _get_roads : string -> Z -> list (@Link geometry).
Variable _get_buildings : list (@Link geometry) -> list (@Building geometry).
Variable _create_model : Z -> TopicModel.

(** The rows of the table of [_get_events], column by column. *)
Lemma get_events_table (messages : GeoDataFrame (@Message geometry))
  (buildings : list Building) (min_event_size : Z) (table : GeoDataFrame Event) :
  _get_events _create_model messages buildings min_event_size = Ok table ->
  exists extracted,
    extracted_events _create_model (rows messages) buildings min_event_size
    = Ok extracted
    /\ crs table = Some 4326%Z
    /\ map id (rows table) = map e_id extracted
    /\ map name (rows table) = map e_Name extracted
    /\ map level (rows table) = map e_level extracted
    /\ map population (rows table) = map potential_population extracted
    /\ map message_ids (rows table)
       = map (fun x => join ", " (map str_Z (e_message_ids x))) extracted.
Proof.
  unfold _get_events. intros H. inv_bind H. inv_bind H. injection H as <-.
  apply set_crs_Ok in Hx0. destruct Hx0 as [Hrows Hcrs]. simpl in Hrows.
  exists x. split; [exact Hx|]. split; [exact Hcrs|]. simpl. rewrite Hrows.
  apply final_events_map; unfold intensity_column, duration_column;
    rewrite min_max_normalize_length; apply length_map.
Qed.

(** X5: [_get_events] returns one row for every extracted event, in the order
    of extraction, with the event's name, level, id, potential population
    and its member ids joined by a comma and a space; the table is tagged
    EPSG:4326.  No row is lost to the normalized columns. *)
Theorem get_events_rows (messages : GeoDataFrame (@Message geometry))
  (buildings : list Building) (min_event_size : Z) (table : GeoDataFrame Event) :
  _get_events _create_model messages buildings min_event_size = Ok table ->
  exists extracted,
    extracted_events _create_model (rows messages) buildings min_event_size
    = Ok extracted
    /\ crs table = Some 4326%Z
    /\ map id (rows table) = map e_id extracted
    /\ map name (rows table) = map e_Name extracted
    /\ map level (rows table) = map e_level extracted
    /\ map population (rows table) = map potential_population extracted
    /\ map message_ids (rows table)
       = map (fun x => join ", " (map str_Z (e_message_ids x))) extracted.
Proof.
  exact (get_events_table messages buildings min_event_size table).
Qed.

End MoreProperties.

(** ** Connections *)

Lemma combinations_map {A B} (f : A -> B) (l : list A) :
  combinations (map f l)
  = map (fun p => (f (fst p), f (snd p))) (combinations l).
Proof.
  induction l as [|x l IH]; simpl; [reflexivity|].
  rewrite map_app, !map_map, IH. reflexivity.
Qed.

Lemma combine_map_map {A B C} (f : A -> B) (g : A -> C) (l : list A) :
  combine (map f l) (map g l) = map (fun x => (f x, g x)) l.
Proof. induction l as [|x l IH]; simpl; [|rewrite IH]; reflexivity. Qed.

Lemma combinations_nil {A} (l : list A) :
  combinations l = [] <-> length l < 2.
Proof.
  destruct l as [|x [|y l]]; simpl; split; intros H; try reflexivity;
    try lia; discriminate.
Qed.

Lemma In_combinations {A} (l : list A) (x y : A) :
  In (x, y) (combinations l)
  <-> exists i j, i < j /\ nth_error l i = Some x /\ nth_error l j = Some y.
Proof.
  induction l as [|z l IH]; simpl.
  - split; [tauto|]. intros (i & j & _ & Hi & _). destruct i; discriminate.
  - rewrite in_app_iff, in_map_iff, IH. split.
    + intros [(y' & [= <- <-] & Hy)|(i & j & Hij & Hi & Hj)].
      * apply In_nth_error in Hy. destruct Hy as [j Hj].
        exists 0, (S j). simpl. split; [lia | auto].
      * exists (S i), (S j). simpl. split; [lia | auto].
    + intros (i & j & Hij & Hi & Hj). destruct j as [|j]; [lia|].
      simpl in Hj. destruct i as [|i]; simpl in Hi.
      * injection Hi as <-. left. exists y. split; [reflexivity|].
        eapply nth_error_In, Hj.
      * right. exists i, j. split; [lia | auto].
Qed.

Lemma get_event_connections_pairs (events : GeoDataFrame Event) :
  _get_event_connections events
  = if length (rows events) <? 2 then Raise ValueError
    else match filter (fun c => 0 <? weight c)
                 (map pair_connection (combinations (rows events))) with
         | [] => Raise ValueError
         | c :: cs => Ok (mkGeo (c :: cs) (Some 32636%Z))
         end.
Proof.
  unfold _get_event_connections. cbv zeta.
  rewrite !combinations_map, map_map.
  destruct (Nat.ltb_spec (length (rows events)) 2) as [Hlt|Hge].
  - apply combinations_nil in Hlt. rewrite Hlt. reflexivity.
  - destruct (map (fun p => (id (fst p), id (snd p))) (combinations (rows events)))
      as [|n ns] eqn:Hn.
    + apply map_eq_nil, combinations_nil in Hn. lia.
    + rewrite <- Hn, combine_map_map, map_map.
      change (map _ (combinations (rows events)))
        with (map pair_connection (combinations (rows events))).
      destruct (filter _ _); reflexivity.
Qed.

(** A returned table holds the pairs of positive weight, and has one. *)
Lemma get_event_connections_Ok (events : GeoDataFrame Event)
  (table : GeoDataFrame Connection) :
  _get_event_connections events = Ok table ->
  2 <= length (rows events)
  /\ table = mkGeo (filter (fun c => 0 <? weight c)
                      (map pair_connection (combinations (rows events))))
                   (Some 32636%Z).
Proof.
  rewrite get_event_connections_pairs.
  destruct (Nat.ltb_spec (length (rows events)) 2) as [Hlt|Hge]; [discriminate|].
  destruct (filter _ _); [discriminate|].
  intros [= <-]. auto.
Qed.

(** The table of [_get_event_connections]: none with fewer than two
    events, the pairs of positive weight when there is one. *)
Lemma get_event_connections_table (events : GeoDataFrame Event) :
  (length (rows events) < 2 -> _get_event_connections events = Raise ValueError)
  /\ (forall i0 j0 x0 y0,
        i0 < j0 ->
        nth_error (rows events) i0 = Some x0 ->
        nth_error (rows events) j0 = Some y0 ->
        0 < weight (pair_connection (x0, y0)) ->
        exists table,
          _get_event_connections events = Ok table
          /\ crs table = Some 32636%Z
          /\ forall c,
               In c (rows table)
               <-> 0 < weight c
                   /\ exists i j x y,
                        i < j
                        /\ nth_error (rows events) i = Some x
                        /\ nth_error (rows events) j = Some y
                        /\ c = pair_connection (x, y)).
Proof.
  rewrite get_event_connections_pairs. split.
  - intros Hlt. apply Nat.ltb_lt in Hlt. rewrite Hlt. reflexivity.
  - intros i0 j0 x0 y0 Hij0 Hx0 Hy0 Hw0.
    assert (Hge : 2 <= length (rows events)).
    { assert (j0 < length (rows events)) by (apply nth_error_Some; congruence).
      lia. }
    apply Nat.ltb_ge in Hge. rewrite Hge.
    assert (Hrows : forall c,
               In c (filter (fun c => 0 <? weight c)
                       (map pair_connection (combinations (rows events))))
               <-> 0 < weight c
                   /\ exists i j x y,
                        i < j
                        /\ nth_error (rows events) i = Some x
                        /\ nth_error (rows events) j = Some y
                        /\ c = pair_connection (x, y)).
    { intros c. rewrite filter_In, in_map_iff, Nat.ltb_lt. split.
      - intros [([x y] & <- & Hxy) Hw]. split; [exact Hw|].
        apply In_combinations in Hxy. destruct Hxy as (i & j & Hij & Hi & Hj).
        exists i, j, x, y. auto.
      - intros [Hw (i & j & x & y & Hij & Hi & Hj & ->)]. split; [|exact Hw].
        exists (x, y). split; [reflexivity|].
        apply In_combinations. exists i, j. auto. }
    destruct (filter _ _) as [|c cs] eqn:Hf.
    + exfalso. apply (proj2 (Hrows (pair_connection (x0, y0)))).
      split; [exact Hw0|]. exists i0, j0, x0, y0. auto.
    + eexists. split; [reflexivity|]. split; [reflexivity|]. exact Hrows.
Qed.

(** X6: [_get_event_connections] needs two events: with fewer it raises
    ValueError.  When some earlier and some later row of the events table
    share a character of their id strings, it returns a table tagged
    EPSG:32636 whose rows are exactly the connections of the pairs of an
    earlier and a later row that share a character; every returned weight
    is positive. *)
Theorem get_event_connections_rows (events : GeoDataFrame Event) :
  (length (rows events) < 2 -> _get_event_connections events = Raise ValueError)
  /\ (forall i0 j0 x0 y0,
        i0 < j0 ->
        nth_error (rows events) i0 = Some x0 ->
        nth_error (rows events) j0 = Some y0 ->
        0 < weight (pair_connection (x0, y0)) ->
        exists table,
          _get_event_connections events = Ok table
          /\ crs table = Some 32636%Z
          /\ forall c,
               In c (rows table)
               <-> 0 < weight c
                   /\ exists i j x y,
                        i < j
                        /\ nth_error (rows events) i = Some x
                        /\ nth_error (rows events) j = Some y
                        /\ c = pair_connection (x, y)).
Proof.
  exact (get_event_connections_table events).
Qed.

(** *** The characters of rendered ids *)

Lemma chars_app (s t : string) :
  list_ascii_of_string (s +:+ t)
  = list_ascii_of_string s ++ list_ascii_of_string t.
Proof. induction s as [|c s IH]; simpl; [|rewrite IH]; reflexivity. Qed.

Lemma elem_char_set (c : ascii) (s : string) :
  c ∈ char_set s <-> In c (list_ascii_of_string s).
Proof. unfold char_set. rewrite elem_of_list_to_set. apply list_elem_of_In. Qed.

Lemma uint_chars (d : Decimal.uint) (c : ascii) :
  In c (list_ascii_of_string (NilEmpty.string_of_uint d)) ->
  In c (list_ascii_of_string "0123456789").
Proof.
  induction d as [|d IH|d IH|d IH|d IH|d IH|d IH|d IH|d IH|d IH|d IH];
    simpl; intros H; try contradiction;
    (destruct H as [<-|H]; [auto 15 | apply IH in H; simpl in H; tauto]).
Qed.

Lemma str_Z_chars (z : Z) (c : ascii) :
  In c (list_ascii_of_string (str_Z z)) ->
  In c (list_ascii_of_string "0123456789-").
Proof.
  assert (Hdigits : forall d,
             In c (list_ascii_of_string (NilZero.string_of_uint d)) ->
             In c (list_ascii_of_string "0123456789-")).
  { intros d H. assert (H' : In c (list_ascii_of_string "0123456789")).
    { assert (E : NilZero.string_of_uint d = "0"
                  \/ NilZero.string_of_uint d = NilEmpty.string_of_uint d)
        by (destruct d; auto).
      destruct E as [E|E]; rewrite E in H.
      - simpl in H |- *. tauto.
      - apply (uint_chars d c H). }
    simpl in H' |- *. tauto. }
  unfold str_Z, NilZero.string_of_int. destruct (Z.to_int z) as [d|d].
  - apply Hdigits.
  - simpl. intros [<-|H]; [simpl; auto 15 | apply (Hdigits d), H].
Qed.

Lemma str_Z_nonempty (z : Z) : exists c, In c (list_ascii_of_string (str_Z z)).
Proof.
  unfold str_Z, NilZero.string_of_int. destruct (Z.to_int z) as [d|d].
  - destruct d; simpl; eauto.
  - simpl. eauto.
Qed.

Lemma join_chars_in (ids : list Z) (z : Z) (c : ascii) :
  In z ids -> In c (list_ascii_of_string (str_Z z)) ->
  In c (list_ascii_of_string (join ", " (map str_Z ids))).
Proof.
  induction ids as [|y ids IH]; [contradiction|].
  intros Hz Hc. simpl. destruct (map str_Z ids) as [|s ss] eqn:Hmap.
  - destruct ids; [|discriminate]. destruct Hz as [->|[]]. exact Hc.
  - rewrite <- Hmap in *. rewrite !chars_app, !in_app_iff.
    destruct Hz as [->|Hz]; [left; exact Hc | right; right; auto].
Qed.

Lemma join_chars (ids : list Z) (c : ascii) :
  In c (list_ascii_of_string (join ", " (map str_Z ids))) ->
  In c (list_ascii_of_string "0123456789-, ").
Proof.
  assert (Hz : forall z, In c (list_ascii_of_string (str_Z z)) ->
                         In c (list_ascii_of_string "0123456789-, ")).
  { intros z H. apply str_Z_chars in H. simpl in H |- *. tauto. }
  induction ids as [|y ids IH]; simpl; [tauto|].
  destruct (map str_Z ids) as [|s ss] eqn:Hmap.
  - apply Hz.
  - rewrite <- Hmap in *. rewrite !chars_app, !in_app_iff.
    intros [H|[H|H]]; [apply (Hz y H) | | apply IH, H].
    simpl in H |- *. tauto.
Qed.

Lemma nth_error_map_eq {A B C} (f : A -> C) (g : B -> C) (l : list A)
  (l' : list B) (i : nat) (x : B) :
  map f l = map g l' -> nth_error l' i = Some x ->
  exists y, nth_error l i = Some y /\ f y = g x.
Proof.
  intros Hmap Hx.
  assert (H : nth_error (map f l) i = Some (g x))
    by (rewrite Hmap; apply map_nth_error, Hx).
  rewrite nth_error_map in H.
  destruct (nth_error l i) as [y|]; [|discriminate].
  exists y. split; [reflexivity|]. simpl in H. congruence.
Qed.

Lemma size_pos_of_elem (X : gset ascii) (c : ascii) : c ∈ X -> 0 < size X.
Proof.
  intros Hc. destruct (size X) eqn:E; [|lia].
  apply size_empty_iff in E. set_solver.
Qed.

Section ConnectionProperties.

Context {geometry : Type} {float_ops : Float64}.
Variable _create_model : Z -> TopicModel.

(** X7: two extracted events that share a member message are connected: when
    the events table of [_get_events] holds an earlier and a later event
    with a common member message id, [_get_event_connections] returns a
    connection from the earlier to the later event, of positive weight. *)
Theorem shared_message_connected (messages : GeoDataFrame (@Message geometry))
  (buildings : list Building) (min_event_size : Z) (table : GeoDataFrame Event)
  (extracted : list EventRow) (i j : nat) (x y : EventRow) (z : Z) :
  _get_events _create_model messages buildings min_event_size = Ok table ->
  extracted_events _create_model (rows messages) buildings min_event_size
  = Ok extracted ->
  i < j -> nth_error extracted i = Some x -> nth_error extracted j = Some y ->
  In z (e_message_ids x) -> In z (e_message_ids y) ->
  exists connections c,
    _get_event_connections table = Ok connections
    /\ In c (rows connections)
    /\ a c = e_id x /\ b c = e_id y /\ 0 < weight c.
Proof.
  intros Htable Hext Hij Hx Hy Hzx Hzy.
  destruct (get_events_table _ _ _ _ _ Htable)
    as (extracted' & Hext' & _ & Hid & _ & _ & _ & Hids).
  rewrite Hext in Hext'. injection Hext' as <-.
  destruct (nth_error_map_eq _ _ _ _ _ _ Hid Hx) as (ex & Hex & Hexid).
  destruct (nth_error_map_eq _ _ _ _ _ _ Hid Hy) as (ey & Hey & Heyid).
  destruct (nth_error_map_eq _ _ _ _ _ _ Hids Hx) as (ex' & Hex' & Hexm).
  destruct (nth_error_map_eq _ _ _ _ _ _ Hids Hy) as (ey' & Hey' & Heym).
  rewrite Hex in Hex'. injection Hex' as <-.
  rewrite Hey in Hey'. injection Hey' as <-.
  assert (Hw : 0 < weight (pair_connection (ex, ey))).
  { simpl. destruct (str_Z_nonempty z) as (c & Hc).
    apply (size_pos_of_elem _ c), elem_of_intersection.
    rewrite !elem_char_set, Hexm, Heym.
    split; apply (join_chars_in _ z); assumption. }
  destruct (get_event_connections_table table) as [_ Hrows].
  destruct (Hrows i j ex ey Hij Hex Hey Hw) as (connections & Hconn & _ & Hin).
  exists connections, (pair_connection (ex, ey)).
  split; [exact Hconn|]. split; [|auto].
  apply Hin. split; [exact Hw|]. exists i, j, ex, ey. auto.
Qed.

(** X8: the weight of a connection is a number of characters: whatever the
    events of the table of [_get_events] share, no weight returned by
    [_get_event_connections] exceeds 13 (ten digits, the minus sign, the
    comma and the space). *)
Theorem connection_weight_bound (messages : GeoDataFrame (@Message geometry))
  (buildings : list Building) (min_event_size : Z) (table : GeoDataFrame Event)
  (connections : GeoDataFrame Connection) (c : Connection) :
  _get_events _create_model messages buildings min_event_size = Ok table ->
  _get_event_connections table = Ok connections ->
  In c (rows connections) ->
  0 < weight c <= 13.
Proof.
  intros Htable Hconn Hc.
  destruct (get_events_table _ _ _ _ _ Htable)
    as (extracted & _ & _ & _ & _ & _ & _ & Hids).
  apply get_event_connections_Ok in Hconn. destruct Hconn as [_ ->].
  simpl in Hc.
  apply filter_In in Hc. destruct Hc as [Hc Hw]. apply Nat.ltb_lt in Hw.
  split; [exact Hw|].
  apply in_map_iff in Hc. destruct Hc as ([x y] & <- & Hxy). simpl.
  apply In_combinations in Hxy. destruct Hxy as (i & _ & _ & Hi & _).
  assert (Hx : exists ids, message_ids x = join ", " (map str_Z ids)).
  { assert (H : nth_error (map message_ids (rows table)) i = Some (message_ids x))
      by (apply map_nth_error, Hi).
    rewrite Hids, nth_error_map in H.
    destruct (nth_error extracted i) as [r|]; [|discriminate].
    exists (e_message_ids r). simpl in H. congruence. }
  destruct Hx as (ids & Hx).
  change 13 with (size id_chars).
  apply subseteq_size. intros ch Hch.
  apply elem_of_intersection in Hch. destruct Hch as [Hch _].
  apply elem_char_set in Hch. rewrite Hx in Hch. apply join_chars in Hch.
  apply elem_char_set. exact Hch.
Qed.

End ConnectionProperties.

(** ** Extraction of the events of one object *)

Section ExtractionProperties.

Context {geometry : Type} {float_ops : Float64}.

Implicit Types (buildings : list (@Building geometry))
  (messages : list (@Message geometry)) (topic_model : TopicModel)
  (population : Level -> gmap Z Q).

(** What a returned table is made of. *)
Lemma event_from_object_inv buildings messages topic_model target_column
  population object_id event_level (events : list EventRow) :
  _event_from_object buildings messages topic_model target_column population
    object_id event_level = Ok (Some events) ->
  let local_messages :=
    filter (fun m => col_eq (column target_column m) object_id) messages in
  let docs := map text local_messages in
  exists topics0 topics fitted,
    5 <= length local_messages
    /\ fit_transform topic_model docs = Ok topics0
    /\ reduce_step topic_model docs topics0 = Ok (topics, fitted)
    /\ length topics = length local_messages
    /\ Forall2
         (fun info e =>
            let ids :=
              map fst (filter (fun r => (snd r =? Topic info)%Z)
                         (combine (map message_id local_messages) topics)) in
            let members := filter (fun m => isin (message_id m) ids) messages in
            e_Topic e = Topic info
            /\ e_message_ids e = ids
            /\ e_duration e = day_span (map date_time members)
            /\ mean (map importance members) = Ok (e_importance e))
         (get_topic_info topic_model docs fitted) events.
Proof.
  intros H local_messages docs. unfold _event_from_object in H.
  fold local_messages in H. fold docs in H.
  destruct (Nat.leb_spec 5 (length docs)) as [Hlen|_]; [|discriminate].
  unfold docs in Hlen. rewrite length_map in Hlen.
  destruct (fit_transform topic_model docs) as [topics0|[]] eqn:Hfit;
    try discriminate.
  inv_bind H. destruct x as [topics fitted].
  inv_bind H. destruct x as [pop lvl].
  inv_bind H. inv_bind H. injection H as <-.
  unfold clustered in Hx1. rewrite length_map in Hx1.
  destruct (Nat.eqb_spec (length local_messages) (length topics)) as [Heq|_];
    [|discriminate].
  injection Hx1 as <-.
  exists topics0, topics, fitted. repeat split; auto.
  apply mapM_Ok in Hx2.
  eapply List.Forall2_impl; [|exact Hx2].
  intros info e He. simpl in He. inv_bind He. injection He as <-. simpl.
  auto.
Qed.

Lemma combine_functional {A B} (l : list A) (l' : list B) (z : A) (t1 t2 : B) :
  NoDup l -> In (z, t1) (combine l l') -> In (z, t2) (combine l l') -> t1 = t2.
Proof.
  revert l'. induction l as [|x l IH]; intros [|y l'] Hnd; simpl; try tauto.
  inversion Hnd as [|? ? Hx Hnd']; subst.
  intros [E1|H1] [E2|H2].
  - congruence.
  - exfalso. apply Hx. injection E1 as -> _. eapply in_combine_l, H2.
  - exfalso. apply Hx. injection E2 as -> _. eapply in_combine_l, H1.
  - apply (IH l'); assumption.
Qed.

(** X9: the member ids of the events of one call are ids of member messages
    of the object; and when the member messages have distinct ids, two
    events of the call that have a member in common are events of the same
    topic: the events of different topics are disjoint. *)
Theorem event_members buildings messages topic_model target_column population
  object_id event_level (events : list EventRow) :
  _event_from_object buildings messages topic_model target_column population
    object_id event_level = Ok (Some events) ->
  let member_ids :=
    map message_id
      (filter (fun m => col_eq (column target_column m) object_id) messages) in
  (forall e z, In e events -> In z (e_message_ids e) -> In z member_ids)
  /\ (NoDup member_ids ->
      forall e1 e2 z,
        In e1 events -> In e2 events ->
        In z (e_message_ids e1) -> In z (e_message_ids e2) ->
        e_Topic e1 = e_Topic e2).
Proof.
  intros H member_ids.
  destruct (event_from_object_inv _ _ _ _ _ _ _ _ H)
    as (topics0 & topics & fitted & _ & _ & _ & _ & Hrows).
  fold member_ids in Hrows.
  assert (Hin : forall e z, In e events -> In z (e_message_ids e) ->
                            In (z, e_Topic e) (combine member_ids topics)).
  { intros e z He Hz.
    destruct (Forall2_In_r _ _ _ _ Hrows He) as (info & _ & Ht & Hids & _).
    rewrite Hids in Hz. apply in_map_iff in Hz.
    destruct Hz as ([z' t] & <- & Hzt). apply filter_In in Hzt.
    destruct Hzt as [Hzt Heq]. simpl in Heq. apply Z.eqb_eq in Heq.
    simpl. rewrite Ht, <- Heq. exact Hzt. }
  split.
  - intros e z He Hz. eapply in_combine_l, Hin; eassumption.
  - intros Hnd e1 e2 z He1 He2 Hz1 Hz2.
    eapply combine_functional; [exact Hnd | apply Hin | apply Hin]; eassumption.
Qed.

Lemma day_span_nonneg (times : list Z) (d : Z) :
  day_span times = Some d -> (0 <= d)%Z.
Proof.
  destruct times as [|x xs]; [discriminate|]. intros [= <-].
  destruct (fold_min_spec x xs) as [_ Hmin].
  destruct (fold_max_spec x xs) as [_ Hmax].
  specialize (Hmin x (or_introl eq_refl)).
  specialize (Hmax x (or_introl eq_refl)).
  apply Z.div_pos; lia.
Qed.

(** X10: the duration of an extracted event is a whole, non-negative number of
    days, and it is NaN exactly when no message carries one of the event's
    member ids. *)
Theorem event_duration buildings messages topic_model target_column population
  object_id event_level (events : list EventRow) (e : EventRow) :
  _event_from_object buildings messages topic_model target_column population
    object_id event_level = Ok (Some events) ->
  In e events ->
  match e_duration e with
  | Some d => (0 <= d)%Z
  | None =>
      forall m, In m messages -> isin (message_id m) (e_message_ids e) = false
  end.
Proof.
  intros H He.
  destruct (event_from_object_inv _ _ _ _ _ _ _ _ H)
    as (topics0 & topics & fitted & _ & _ & _ & _ & Hrows).
  destruct (Forall2_In_r _ _ _ _ Hrows He) as (info & _ & _ & Hids & Hd & _).
  rewrite <- Hids in Hd.
  destruct (e_duration e) as [d|] eqn:Hdur.
  - symmetry in Hd. apply day_span_nonneg in Hd. exact Hd.
  - intros m Hm. destruct (isin (message_id m) (e_message_ids e)) eqn:Hin;
      [|reflexivity].
    assert (Hmem : In m (filter (fun m => isin (message_id m) (e_message_ids e))
                           messages)) by (apply filter_In; auto).
    revert Hmem Hd.
    generalize (filter (fun m => isin (message_id m) (e_message_ids e)) messages).
    intros [|m' ms]; [contradiction | discriminate].
Qed.

(** X11: how a call treats the failures of the clustering model: with five
    member messages or more, a TypeError of [fit_transform] skips the
    object, any other exception of [fit_transform] leaves the call; and a
    ValueError of [reduce_outliers] gives the same events as a model
    without refinement pass. *)
Theorem clustering_failures buildings messages topic_model target_column
  population object_id event_level :
  let docs :=
    map text
      (filter (fun m => col_eq (column target_column m) object_id) messages) in
  let result model :=
    _event_from_object buildings messages model target_column population
      object_id event_level in
  5 <= length docs ->
  (fit_transform topic_model docs = Raise TypeError ->
   result topic_model = Ok None)
  /\ (forall e, e <> TypeError ->
                fit_transform topic_model docs = Raise e ->
                result topic_model = Raise e)
  /\ (forall topics,
        fit_transform topic_model docs = Ok topics ->
        reduce_outliers topic_model docs topics = Raise ValueError ->
        result topic_model = result (unrefined topic_model)).
Proof.
  intros docs result Hlen. unfold result, _event_from_object. fold docs.
  apply Nat.leb_le in Hlen. rewrite Hlen.
  split; [|split].
  - intros ->. reflexivity.
  - intros e He ->. destruct e; congruence.
  - intros topics Hfit Hred. simpl. rewrite Hfit.
    unfold reduce_step. simpl. rewrite Hred. reflexivity.
Qed.

End ExtractionProperties.

(** ** Preprocessing, row by row *)

Lemma left_join_In {B} (found : list B) (o : option B) :
  In o (left_join found)
  <-> (found = [] /\ o = None) \/ (exists x, In x found /\ o = Some x).
Proof.
  destruct found as [|y l]; simpl.
  - split; [intros [<-|[]]; auto | intros [[_ ->]|(x & [] & _)]; auto].
  - split.
    + intros [<-|H]; right; [exists y; auto|].
      apply in_map_iff in H. destruct H as (x & <- & Hx). exists x; auto.
    + intros [[H _]|(x & [<-|Hx] & ->)]; [discriminate | auto |].
      right. apply in_map. exact Hx.
Qed.

Lemma left_join_nonempty {B} (found : list B) : left_join found <> [].
Proof. destruct found; discriminate. Qed.

Lemma flat_map_nonempty {A B} (f : A -> list B) (l : list A) :
  l <> [] -> (forall x, f x <> []) -> flat_map f l <> [].
Proof.
  destruct l as [|x l]; [congruence|]. intros _ Hf. simpl.
  specialize (Hf x). destruct (f x); [congruence | discriminate].
Qed.

Lemma left_join_single {B} (found : list B) :
  length found <= 1 -> exists o, left_join found = [o].
Proof.
  destruct found as [|x [|y l]]; simpl; intros H; eauto. lia.
Qed.

Lemma filter_key_unique {A} (f : A -> Z) (l : list A) (k : option Z) :
  NoDup (map f l) ->
  length (filter (fun x => col_eq (Some (f x)) k) l) <= 1.
Proof.
  destruct k as [k|]; simpl.
  2:{ intros _. induction l as [|x l IH]; simpl; lia. }
  induction l as [|x l IH]; simpl; [lia|].
  intros Hnd. inversion Hnd as [|? ? Hx Hnd']; subst.
  specialize (IH Hnd').
  destruct (Z.eqb_spec (f x) k) as [<-|_]; [|exact IH].
  replace (filter (fun y => (f y =? f x)%Z) l) with (@nil A); [simpl; lia|].
  symmetry. clear IH Hnd Hnd'. induction l as [|y l IH]; [reflexivity|].
  simpl. destruct (Z.eqb_spec (f y) (f x)) as [E|_].
  - exfalso. apply Hx. left. exact E.
  - apply IH. intros H. apply Hx. right. exact H.
Qed.

Section PreprocessProperties.

Context {geometry : Type} {float_ops : Float64}.
Variable intersects : geometry -> geometry -> bool.

Implicit Types (messages : GeoDataFrame (@RawMessage geometry))
  (buildings : list (@Building geometry)) (links : list (@Link geometry)).

Lemma joined_flat_map (raw : list RawMessage) buildings links :
  joined intersects raw buildings links
  = flat_map (joined_of intersects buildings links) raw.
Proof.
  unfold joined_of, joined.
  induction raw as [|m ms IH]; [reflexivity|].
  cbn [flat_map]. rewrite app_nil_r, IH. reflexivity.
Qed.

Lemma joined_of_message buildings links (m : RawMessage) (r : JoinedRow) :
  In r (joined_of intersects buildings links m) -> j_message r = m.
Proof.
  unfold joined_of, joined. simpl. rewrite app_nil_r.
  rewrite in_flat_map. intros (ob & _ & H).
  rewrite in_flat_map in H. destruct H as (ol & _ & H).
  apply in_map_iff in H. destruct H as (ofb & <- & _). reflexivity.
Qed.

Lemma joined_of_nonempty buildings links (m : RawMessage) :
  joined_of intersects buildings links m <> [].
Proof.
  unfold joined_of, joined. cbn [flat_map]. rewrite app_nil_r.
  apply flat_map_nonempty; [apply left_join_nonempty|]. intros ob.
  apply flat_map_nonempty; [apply left_join_nonempty|]. intros ol.
  intros H. apply map_eq_nil in H. revert H. apply left_join_nonempty.
Qed.

(** X13: preprocessing loses no message that has a text and invents none: a
    preprocessed row repeats the id, text, time and category of a raw
    message, with the weight of its category as importance; and every raw
    message with a text has at least one preprocessed row.  The CRS is
    kept. *)
Theorem preprocess_keeps_messages messages buildings links :
  let out := _preprocess intersects messages buildings links in
  crs out = crs messages
  /\ (forall m', In m' (rows out) ->
        exists m, In m (rows messages)
                  /\ raw_text m = Some (text m')
                  /\ raw_message_id m = message_id m'
                  /\ raw_date_time m = date_time m'
                  /\ raw_cats m = cats m'
                  /\ importance m' = replace_weight (cats m'))
  /\ (forall m t, In m (rows messages) -> raw_text m = Some t ->
        exists m', In m' (rows out)
                   /\ message_id m' = raw_message_id m /\ text m' = t).
Proof.
  intros out. split; [reflexivity|]. split.
  - intros m' Hm'. simpl in Hm'.
    apply list_elem_of_In, list_elem_of_omap in Hm'.
    destruct Hm' as (r & Hr & Hrow). apply list_elem_of_In in Hr.
    rewrite joined_flat_map, in_flat_map in Hr. destruct Hr as (m & Hm & Hr).
    apply joined_of_message in Hr. unfold preprocess_row in Hrow.
    rewrite Hr in Hrow. destruct (raw_text m) as [t|] eqn:Ht; [|discriminate].
    injection Hrow as <-. exists m. simpl. auto 10.
  - intros m t Hm Ht.
    destruct (joined_of intersects buildings links m) as [|r rs] eqn:Hj;
      [exfalso; eapply joined_of_nonempty, Hj|].
    assert (Hr : In r (joined_of intersects buildings links m)) by (rewrite Hj; left; auto).
    pose proof (joined_of_message _ _ _ _ Hr) as Hmsg.
    destruct (preprocess_row r) as [m'|] eqn:Hrow.
    + exists m'. split.
      * simpl. apply list_elem_of_In, list_elem_of_omap. exists r.
        split; [|exact Hrow]. apply list_elem_of_In.
        rewrite joined_flat_map, in_flat_map. exists m. auto.
      * unfold preprocess_row in Hrow. rewrite Hmsg, Ht in Hrow.
        injection Hrow as <-. auto.
    + unfold preprocess_row in Hrow. rewrite Hmsg, Ht in Hrow. discriminate.
Qed.

Lemma joined_In (raw : list RawMessage) buildings links (r : JoinedRow) :
  In r (joined intersects raw buildings links) ->
  exists m ob ol ofb,
    In m raw
    /\ In ob (left_join
                (filter (fun x => intersects (raw_geometry m) (b_geometry x))
                   buildings))
    /\ In ol (left_join
                (filter (fun l => intersects (raw_geometry m) (l_geometry l))
                   links))
    /\ In ofb (left_join
                 (filter (fun x => col_eq (Some (b_building_id x))
                                     (option_map b_building_id ob)) buildings))
    /\ r = mkJoinedRow m (option_map b_building_id ob) (option_map l_link_id ol)
             (ol ≫= l_name) (ol ≫= l_road_id) (ofb ≫= b_link_id)
             (ofb ≫= b_road_id).
Proof.
  unfold joined. rewrite in_flat_map. intros (m & Hm & H).
  rewrite in_flat_map in H. destruct H as (ob & Hob & H).
  rewrite in_flat_map in H. destruct H as (ol & Hol & H).
  apply in_map_iff in H. destruct H as (ofb & <- & Hofb).
  exists m, ob, ol, ofb. auto.
Qed.

Lemma preprocess_row_In messages buildings links (m' : Message) :
  In m' (rows (_preprocess intersects messages buildings links)) ->
  exists r, In r (joined intersects (rows messages) buildings links)
            /\ preprocess_row r = Some m'
            /\ m_geometry m' = raw_geometry (j_message r)
            /\ building_id m' = j_building_id r
            /\ link_id m' = fillna (j_link_id r) (j_link_id_from_building r)
            /\ road_id m' = fillna (j_road_id r) (j_road_id_from_building r).
Proof.
  intros Hm'. simpl in Hm'. apply list_elem_of_In, list_elem_of_omap in Hm'.
  destruct Hm' as (r & Hr & Hrow). apply list_elem_of_In in Hr.
  exists r. split; [exact Hr|]. split; [exact Hrow|].
  unfold preprocess_row in Hrow. destruct (raw_text (j_message r)); [|discriminate].
  injection Hrow as <-. simpl. auto.
Qed.

(** X14: where a preprocessed message gets its building, link and road from:
    its building is one that its point intersects; a message whose point
    intersects no building and no link has no building, no link and no
    road, and takes part at the global level only; a message whose point
    intersects a building but no link takes the link and the road of a
    building with that id. *)
Theorem preprocess_fallback messages buildings links (m' : Message) :
  In m' (rows (_preprocess intersects messages buildings links)) ->
  let in_building x := intersects (m_geometry m') (b_geometry x) in
  let in_link l := intersects (m_geometry m') (l_geometry l) in
  (forall bid, building_id m' = Some bid ->
     exists x, In x buildings /\ in_building x = true /\ b_building_id x = bid)
  /\ (building_id m' = None <-> forall x, In x buildings -> in_building x = false)
  /\ ((forall l, In l links -> in_link l = false) ->
      match building_id m' with
      | None => link_id m' = None /\ road_id m' = None
      | Some bid =>
          exists x, In x buildings /\ b_building_id x = bid
                    /\ link_id m' = b_link_id x /\ road_id m' = b_road_id x
      end).
Proof.
  intros Hm' in_building in_link.
  destruct (preprocess_row_In _ _ _ _ Hm') as (r & Hr & _ & Hg & Hb & Hl & Hrd).
  destruct (joined_In _ _ _ _ Hr) as (m & ob & ol & ofb & _ & Hob & Hol & Hofb & ->).
  simpl in Hg, Hb, Hl, Hrd. unfold in_building, in_link. rewrite Hg, Hb, Hl, Hrd.
  clear Hg Hb Hl Hrd Hm' Hr in_building in_link.
  apply left_join_In in Hob, Hol, Hofb.
  split; [|split].
  - intros bid Hbid. destruct Hob as [[_ ->]|(x & Hx & ->)]; [discriminate|].
    injection Hbid as <-. apply filter_In in Hx. exists x. tauto.
  - destruct Hob as [[Hnil ->]|(x & Hx & ->)]; simpl.
    + split; [|reflexivity]. intros _ x Hx.
      destruct (intersects (raw_geometry m) (b_geometry x)) eqn:E; [|reflexivity].
      assert (Hin : In x (filter (fun x => intersects (raw_geometry m) (b_geometry x))
                            buildings)) by (apply filter_In; auto).
      rewrite Hnil in Hin. contradiction.
    + split; [discriminate|]. intros Hnone. apply filter_In in Hx.
      destruct Hx as [Hx Hi]. rewrite (Hnone x Hx) in Hi. discriminate.
  - intros Hnolink.
    assert (ol = None) as ->.
    { destruct Hol as [[_ ->]|(l & Hl & ->)]; [reflexivity|].
      apply filter_In in Hl. destruct Hl as [Hl Hi].
      rewrite (Hnolink l Hl) in Hi. discriminate. }
    simpl. destruct Hob as [[_ ->]|(x & Hx & ->)]; simpl.
    + simpl in Hofb.
      assert (Hnil : filter (fun x : Building => false) buildings = [])
        by (clear; induction buildings; auto).
      rewrite Hnil in Hofb.
      destruct Hofb as [[_ ->]|(y & [] & _)]. auto.
    + simpl in Hofb. destruct Hofb as [[Hnil _]|(y & Hy & ->)].
      * exfalso. apply filter_In in Hx. destruct Hx as [Hx _].
        assert (Hin : In x (filter (fun y => (b_building_id y =? b_building_id x)%Z)
                              buildings)).
        { apply filter_In. split; [exact Hx | apply Z.eqb_refl]. }
        rewrite Hnil in Hin. contradiction.
      * apply filter_In in Hy. destruct Hy as [Hy Hid]. apply Z.eqb_eq in Hid.
        exists y. simpl. auto.
Qed.

Lemma joined_of_single buildings links (m : RawMessage) :
  length (filter (fun x => intersects (raw_geometry m) (b_geometry x)) buildings)
  <= 1 ->
  length (filter (fun l => intersects (raw_geometry m) (l_geometry l)) links)
  <= 1 ->
  NoDup (map b_building_id buildings) ->
  exists r, joined_of intersects buildings links m = [r].
Proof.
  intros Hb Hl Hnd. unfold joined_of, joined. cbn [flat_map].
  destruct (left_join_single _ Hb) as (ob & ->).
  destruct (left_join_single _ Hl) as (ol & ->).
  cbn [flat_map].
  destruct (left_join_single _
              (filter_key_unique b_building_id buildings
                 (option_map b_building_id ob) Hnd)) as (ofb & ->).
  simpl. eauto.
Qed.

(** X15: when the point of every message intersects at most one building and
    at most one link, and no two buildings have the same id, the
    preprocessed table has exactly one row for every raw message that has
    a text, in the order of the raw table. *)
Theorem preprocess_one_row_each messages buildings links :
  (forall m, In m (rows messages) ->
     length (filter (fun x => intersects (raw_geometry m) (b_geometry x))
               buildings) <= 1
     /\ length (filter (fun l => intersects (raw_geometry m) (l_geometry l))
                  links) <= 1) ->
  NoDup (map b_building_id buildings) ->
  map message_id (rows (_preprocess intersects messages buildings links))
  = map raw_message_id
      (filter (fun m => match raw_text m with Some _ => true | None => false end)
         (rows messages)).
Proof.
  intros Hone Hnd. simpl. rewrite joined_flat_map.
  induction (rows messages) as [|m ms IH]; [reflexivity|].
  destruct (Hone m (or_introl eq_refl)) as [Hb Hl].
  destruct (joined_of_single buildings links m Hb Hl Hnd) as (r & Hr).
  assert (Hmsg : j_message r = m).
  { apply (joined_of_message buildings links). rewrite Hr. left. reflexivity. }
  cbn [flat_map filter]. rewrite Hr. cbn [app omap list_omap].
  unfold preprocess_row at 1. rewrite Hmsg.
  destruct (raw_text m) as [t|]; simpl; [f_equal|]; apply IH;
    intros m0 Hm0; apply Hone; right; exact Hm0.
Qed.

End PreprocessProperties.

(** ** The population table *)

Section PopulationProperties.

Context {geometry : Type} {float_ops : Float64}.

Implicit Types (buildings : list (@Building geometry)).














End PopulationProperties.

(** ** What a run needs and returns *)

Lemma mapM_all {A B} (f : A -> result B) (g : A -> B) (l : list A) :
  (forall x, In x l -> f x = Ok (g x)) -> mapM f l = Ok (map g l).
Proof.
  induction l as [|x l IH]; intros H; simpl; [reflexivity|].
  rewrite (H x (or_introl eq_refl)). simpl.
  rewrite IH by (intros; apply H; right; assumption). reflexivity.
Qed.

Lemma omap_all_None {A} (l : list (option A)) :
  (forall o, In o l -> o = None) -> omap (fun item => item) l = [].
Proof.
  induction l as [|o l IH]; intros H; [reflexivity|].
  rewrite (H o (or_introl eq_refl)). simpl. apply IH.
  intros; apply H; right; assumption.
Qed.

Lemma filter_length_le {A} (f : A -> bool) (l : list A) :
  length (filter f l) <= length l.
Proof. induction l as [|x l IH]; simpl; [lia|]. destruct (f x); simpl; lia. Qed.

Section RunProperties.

Context {geometry : Type} {float_ops : Float64}.
Variable intersects : geometry -> geometry -> bool.
Variable transform : Z -> Z -> geometry -> geometry.
Variable messages_csv : list (@RawMessage geometry).
Variable _get_roads : string -> Z -> list (@Link geometry).
Variable _get_buildings : list (@Link geometry) -> list (@Building geometry).
Variable _create_model : Z -> TopicModel.

Local Abbreviation run_ := (run intersects transform messages_csv _get_roads
                              _get_buildings _create_model).
Local Abbreviation detected_events_ :=
  (detected_events intersects messages_csv _get_roads _get_buildings
     _create_model).

(** The preprocessed messages of a run. *)
Local Abbreviation preprocessed_ city_name city_crs :=
  (_preprocess intersects (mkGeo messages_csv (Some 4326%Z))
     (_get_buildings (_get_roads city_name city_crs))
     (_get_roads city_name city_crs)).

(** Fewer than five messages: nothing to concatenate. *)
Lemma get_events_few (messages : GeoDataFrame (@Message geometry))
  (buildings : list Building) (min_event_size : Z) :
  length (rows messages) < 5 ->
  _get_events _create_model messages buildings min_event_size = Raise ValueError.
Proof.
  intros Hlen. unfold _get_events, extracted_events.
  rewrite (mapM_all _ (fun level =>
             map (fun _ => None)
                 (unique oid_eqb (map (column level) (rows messages))))).
  - simpl. rewrite omap_all_None; [reflexivity|].
    intros o Ho. rewrite !app_nil_r, !in_app_iff in Ho.
    repeat (destruct Ho as [Ho|Ho]; [apply in_map_iff in Ho;
                                     destruct Ho as (? & <- & _); reflexivity|]).
    apply in_map_iff in Ho. destruct Ho as (? & <- & _). reflexivity.
  - intros level _. apply mapM_all. intros oid _.
    unfold _event_from_object. rewrite length_map.
    destruct (Nat.leb_spec 5
                (length (filter (fun m => col_eq (column level m) oid)
                           (rows messages)))) as [Hge|_]; [|reflexivity].
    pose proof (filter_length_le (fun m => col_eq (column level m) oid)
                  (rows messages)). lia.
Qed.

(** X18: with fewer than five messages no object has five members, nothing is
    extracted, and [_get_events] raises the ValueError of [pd.concat]. *)
Theorem get_events_few_messages (messages : GeoDataFrame (@Message geometry))
  (buildings : list Building) (min_event_size : Z) :
  length (rows messages) < 5 ->
  _get_events _create_model messages buildings min_event_size = Raise ValueError.
Proof.
  exact (get_events_few messages buildings min_event_size).
Qed.

(** X19: a run fails with ValueError when preprocessing leaves fewer than five
    messages; a run that returns had at least five preprocessed messages
    and at least two detected events. *)
Theorem run_needs (city_name : string) (city_crs min_event_size : Z) :
  let links := _get_roads city_name city_crs in
  let preprocessed :=
    _preprocess intersects (mkGeo messages_csv (Some 4326%Z))
      (_get_buildings links) links in
  (length (rows preprocessed) < 5 ->
   run intersects transform messages_csv _get_roads _get_buildings
     _create_model city_name city_crs min_event_size
   = Raise ValueError)
  /\ (forall r,
        run intersects transform messages_csv _get_roads _get_buildings
          _create_model city_name city_crs min_event_size
        = Ok r ->
        5 <= length (rows preprocessed)
        /\ exists detected,
             detected_events intersects messages_csv _get_roads _get_buildings
               _create_model city_name city_crs min_event_size
             = Ok detected
             /\ 2 <= length (rows detected)).
Proof.
  cbv zeta.
  assert (Hfew : length (rows (preprocessed_ city_name city_crs)) < 5 ->
                 run_ city_name city_crs min_event_size = Raise ValueError).
  { intros Hlen. unfold run. simpl.
    rewrite (get_events_few _ _ _ Hlen). reflexivity. }
  split; [exact Hfew|].
  intros [[messages events] connections] Hrun. split.
  - destruct (Nat.le_gt_cases 5 (length (rows (preprocessed_ city_name city_crs))))
      as [Hge|Hlt]; [exact Hge|].
    rewrite (Hfew Hlt) in Hrun. discriminate.
  - destruct (run_tables _ _ _ _ _ _ _ _ _ _ _ _ Hrun)
      as (detected & found & Hd & Hc & _).
    exists detected. split; [exact Hd|].
    unfold detected_connections in Hc. rewrite Hd in Hc. simpl in Hc.
    rewrite get_event_connections_pairs in Hc.
    destruct (Nat.ltb_spec (length (rows detected)) 2); [discriminate | lia].
Qed.

(** X20: the messages table of a run that returns is the preprocessed table,
    row for row and in order, with the category column called [block] and
    the geometry reprojected to EPSG:4326. *)
Theorem run_messages (city_name : string) (city_crs min_event_size : Z)
  (messages : GeoDataFrame OutMessage) (events : GeoDataFrame Event)
  (connections : GeoDataFrame Connection) :
  run_ city_name city_crs min_event_size = Ok (messages, events, connections) ->
  rows messages
  = map (fun m => mkOutMessage (message_id m) (text m)
                    (transform 4326 4326 (m_geometry m)) (date_time m) (cats m))
        (rows (preprocessed_ city_name city_crs)).
Proof.
  unfold run. simpl. intros H. inv_bind H. inv_bind H.
  injection H as <- _ _. simpl. rewrite map_map. reflexivity.
Qed.

(** X21: no connection of a run dangles: when the clustering model names a
    topic by its label, an underscore and its words, both ends of every
    returned connection are ids of returned events, and its weight is
    positive. *)
Theorem run_connections_closed (city_name : string)
  (city_crs min_event_size : Z) (messages : GeoDataFrame OutMessage)
  (events : GeoDataFrame Event) (connections : GeoDataFrame Connection)
  (c : Connection) :
  (forall k docs topics info,
     In info (get_topic_info (_create_model k) docs topics) ->
     exists words, Name info = str_Z (Topic info) +:+ "_" +:+ words) ->
  run_ city_name city_crs min_event_size = Ok (messages, events, connections) ->
  In c (rows connections) ->
  0 < weight c
  /\ (exists e, In e (rows events) /\ id e = a c)
  /\ (exists e, In e (rows events) /\ id e = b c).
Proof.
  intros Hnames Hrun Hc.
  destruct (run_events_extracted _ _ _ _ _ _ _ _ _ _ _ _ Hrun)
    as (detected & found & extracted & Hd & Hf & Hx & Hev & Hconn & Hfinal).
  rewrite Hconn in Hc. apply filter_In in Hc. destruct Hc as [Hc Hb].
  apply filter_In in Hc. destruct Hc as [Hc Ha].
  apply negb_true_iff in Ha, Hb.
  unfold detected_connections in Hf. rewrite Hd in Hf. simpl in Hf.
  apply get_event_connections_Ok in Hf. destruct Hf as [_ ->].
  simpl in Hc. apply filter_In in Hc.
  destruct Hc as [Hc Hw]. apply Nat.ltb_lt in Hw. split; [exact Hw|].
  apply in_map_iff in Hc. destruct Hc as ([ea eb] & <- & Hpair).
  simpl in Ha, Hb |- *.
  apply In_combinations in Hpair. destruct Hpair as (i & j & _ & Hi & Hj).
  apply nth_error_In in Hi, Hj.
  assert (Hkept : forall e, In e (rows detected) -> is_outlier (id e) = false ->
                            In e (rows events)).
  { intros e He Hout. rewrite Hev. apply filter_In. split; [exact He|].
    destruct (Hfinal e He) as (x & i' & d & Hin & ->). simpl in Hout |- *.
    unfold extracted_in_run in Hx. simpl in Hx.
    rewrite (extracted_outlier_id _ _ _ _ _ _ Hnames Hx Hin), Hout. reflexivity. }
  split; [exists ea | exists eb]; auto.
Qed.

End RunProperties.

(** ** The loaders *)

Lemma enumerate_from_fst {A} (start : nat) (l : list A) :
  map fst (combine (map Z.of_nat (seq start (length l))) l)
  = map Z.of_nat (seq start (length l)).
Proof.
  revert start. induction l as [|x l IH]; intros start; simpl; [reflexivity|].
  rewrite IH. reflexivity.
Qed.

Lemma enumerate_from_snd {A} (start : nat) (l : list A) :
  map snd (combine (map Z.of_nat (seq start (length l))) l) = l.
Proof.
  revert start. induction l as [|x l IH]; intros start; simpl; [reflexivity|].
  rewrite IH. reflexivity.
Qed.

Lemma enumerate_fst {A} (l : list A) :
  map fst (enumerate l) = map Z.of_nat (seq 0 (length l)).
Proof. apply enumerate_from_fst. Qed.

Lemma enumerate_snd {A} (l : list A) : map snd (enumerate l) = l.
Proof. apply enumerate_from_snd. Qed.

Lemma seq_Z_NoDup (start n : nat) : NoDup (map Z.of_nat (seq start n)).
Proof.
  apply Finite.Injective_map_NoDup; [intros x y; apply Nat2Z.inj|].
  apply seq_NoDup.
Qed.

(** The position of the first occurrence of a name in the table of names. *)
Lemma find_position (start : nat) (names : list string) (s : string) :
  In s names ->
  exists i,
    find (fun kv : string * Z => String.eqb (fst kv) s)
      (map (fun kv : Z * string => (snd kv, fst kv))
         (combine (map Z.of_nat (seq start (length names))) names))
    = Some (s, Z.of_nat (start + i))
    /\ nth_error names i = Some s.
Proof.
  revert start. induction names as [|t names IH]; intros start Hs; [contradiction|].
  simpl. destruct (String.eqb_spec t s) as [->|Hne].
  - exists 0. rewrite Nat.add_0_r. auto.
  - destruct Hs as [Hs|Hs]; [contradiction|].
    destruct (IH (S start) Hs) as (i & Hfind & Hnth).
    exists (S i). rewrite Nat.add_succ_r. auto.
Qed.

Lemma filter_filter_same {A} (f : A -> bool) (l : list A) :
  filter f (filter f l) = filter f l.
Proof.
  induction l as [|x l IH]; simpl; [reflexivity|].
  destruct (f x) eqn:Hx; simpl; rewrite ?Hx, IH; reflexivity.
Qed.

Lemma filter_all {A} (f : A -> bool) (l : list A) :
  (forall x, In x l -> f x = true) -> filter f l = l.
Proof.
  induction l as [|x l IH]; intros H; simpl; [reflexivity|].
  rewrite (H x (or_introl eq_refl)), IH; [reflexivity|].
  intros; apply H; right; assumption.
Qed.

Lemma drop_duplicates_In {A} (key : A -> Z) (l : list A) (x : A) :
  In x (drop_duplicates key l) -> In x l.
Proof.
  induction l as [|y l IH]; simpl; [tauto|].
  intros [->|H]; [auto|]. apply filter_In in H. right. apply IH, H.
Qed.

(** A run of rows with one key keeps its first row only. *)
Lemma drop_duplicates_group {A} (key : A -> Z) (c : Z) (group rest : list A) :
  (forall x, In x group -> key x = c) ->
  filter (fun y => negb (c =? key y)%Z) (drop_duplicates key (group ++ rest))
  = filter (fun y => negb (c =? key y)%Z) (drop_duplicates key rest).
Proof.
  induction group as [|y ys IH]; intros Hkey; [reflexivity|].
  simpl. rewrite (Hkey y (or_introl eq_refl)), Z.eqb_refl. simpl.
  rewrite filter_filter_same. apply IH. intros; apply Hkey; right; assumption.
Qed.

Lemma drop_duplicates_groups {A B} (key : B -> Z) (k : A -> Z)
  (rows_of : A -> list B) (first : A -> B) (l : list A) :
  NoDup (map k l) ->
  (forall x, In x l ->
     (exists more, rows_of x = first x :: more)
     /\ forall y, In y (rows_of x) -> key y = k x) ->
  drop_duplicates key (flat_map rows_of l) = map first l.
Proof.
  induction l as [|x l IH]; intros Hnd Hrows; [reflexivity|].
  inversion Hnd as [|? ? Hx Hnd']; subst.
  destruct (Hrows x (or_introl eq_refl)) as [(more & Hfirst) Hkey].
  simpl. rewrite Hfirst. simpl.
  assert (Hk : key (first x) = k x) by (apply Hkey; rewrite Hfirst; left; reflexivity).
  rewrite Hk, (drop_duplicates_group key (k x) more).
  - rewrite IH; [|exact Hnd' | intros; apply Hrows; right; assumption].
    f_equal. apply filter_all. intros y Hy. apply in_map_iff in Hy.
    destruct Hy as (x' & <- & Hx').
    destruct (Hrows x' (or_intror Hx')) as [(more' & Hfirst') Hkey'].
    rewrite (Hkey' (first x')) by (rewrite Hfirst'; left; reflexivity).
    destruct (Z.eqb_spec (k x) (k x')) as [E|_]; [|reflexivity].
    exfalso. apply Hx. rewrite E. apply in_map, Hx'.
  - intros y Hy. apply Hkey. rewrite Hfirst. right. exact Hy.
Qed.

Section LoaderProperties.

Context {geometry : Type}.
Variable loads : string -> geometry.
Variable representative_point : list geometry -> geometry.
Variable buffer : geometry -> geometry.
Variable reproject : Z -> Z -> geometry -> geometry.
Variable nearest : geometry -> list (@Link geometry) -> list (@Link geometry).

(** X22: [_read_data] loses no row and gives every row a geometry: the ids of
    the rows it returns are the ids of the file, those of the rows with a
    geometry first; a row with a geometry has it parsed, and all rows
    without one get the same point. *)
Theorem read_data_rows (df : list CsvRow) :
  let out := _read_data_rows loads representative_point df in
  map raw_message_id out
  = map csv_message_id
      (filter (fun r => match csv_geometry r with Some _ => true | None => false end)
         df
       ++ filter (fun r => match csv_geometry r with Some _ => false | None => true end)
            df)
  /\ Permutation (map raw_message_id out) (map csv_message_id df)
  /\ exists rep_point,
       forall m, In m out ->
         exists r, In r df
                   /\ raw_message_id m = csv_message_id r
                   /\ raw_text m = csv_text r
                   /\ raw_date_time m = csv_date_time r
                   /\ raw_cats m = csv_cats r
                   /\ raw_geometry m
                      = match csv_geometry r with
                        | Some wkt => loads wkt
                        | None => rep_point
                        end.
Proof.
  intros out. subst out. unfold _read_data_rows.
  set (rep_point := representative_point _). clearbody rep_point.
  assert (Hids :
    map raw_message_id
      (omap (fun r =>
               match csv_geometry r with
               | Some wkt =>
                   Some (mkRawMessage (csv_text r) (loads wkt) (csv_date_time r)
                           (csv_message_id r) (csv_cats r))
               | None => None
               end) df
       ++ omap (fun r =>
                  match csv_geometry r with
                  | Some _ => None
                  | None =>
                      Some (mkRawMessage (csv_text r) rep_point (csv_date_time r)
                              (csv_message_id r) (csv_cats r))
                  end) df)
    = map csv_message_id
        (filter (fun r => match csv_geometry r with Some _ => true | None => false end)
           df
         ++ filter (fun r => match csv_geometry r with Some _ => false | None => true end)
              df)).
  { rewrite !map_app. f_equal.
    - induction df as [|r df IH]; [reflexivity|]. cbn [omap list_omap filter].
      destruct (csv_geometry r); simpl; rewrite IH; reflexivity.
    - induction df as [|r df IH]; [reflexivity|]. cbn [omap list_omap filter].
      destruct (csv_geometry r); simpl; rewrite IH; reflexivity. }
  split; [exact Hids|]. split.
  - rewrite Hids. clear Hids. apply Permutation_map.
    induction df as [|r df IH]; [constructor|]. simpl.
    destruct (csv_geometry r); simpl.
    + constructor. exact IH.
    + symmetry. apply Permutation_cons_app. symmetry. exact IH.
  - exists rep_point. intros m Hm. apply in_app_iff in Hm.
    destruct Hm as [Hm|Hm]; apply list_elem_of_In, list_elem_of_omap in Hm;
      destruct Hm as (r & Hr & Hrow); apply list_elem_of_In in Hr; exists r;
      destruct (csv_geometry r); try discriminate; injection Hrow as <-;
      simpl; auto 10.
Qed.

(** The link ids, names and road ids of [_get_roads]. *)
Lemma get_roads_table (city_crs : Z) (edges : list Edge) :
  let links := _get_roads_rows buffer reproject city_crs edges in
  map l_link_id links = map Z.of_nat (seq 0 (length edges))
  /\ map l_name links = map (fun e => link_name (edge_name e)) edges
  /\ (forall x, In x links -> (l_road_id x = None <-> l_name x = None))
  /\ (forall x y s t,
        In x links -> In y links -> l_name x = Some s -> l_name y = Some t ->
        (l_road_id x = l_road_id y <-> s = t)).
Proof.
  intros links. subst links. unfold _get_roads_rows.
  set (names := map (fun e => link_name (edge_name e)) edges).
  assert (Hrow : forall x,
             In x (map (fun ie =>
                          mkLink (fst ie) (link_name (edge_name (snd ie)))
                            (reproject city_crs 4326 (buffer (edge_geometry (snd ie))))
                            (replace_name (road_name_id names)
                               (link_name (edge_name (snd ie)))))
                     (enumerate edges)) ->
             In (l_name x) names
             /\ l_road_id x = replace_name (road_name_id names) (l_name x)).
  { intros x Hx. apply in_map_iff in Hx. destruct Hx as ([i e] & <- & Hie).
    simpl. split; [|reflexivity]. unfold names. apply in_map_iff. exists e.
    split; [reflexivity|]. apply (in_map snd) in Hie.
    rewrite enumerate_snd in Hie. exact Hie. }
  assert (Hpos : forall s, In (Some s) names ->
             exists i, replace_name (road_name_id names) (Some s)
                       = Some (Z.of_nat i)
                       /\ nth_error (unique String.eqb (somes names)) i = Some s).
  { intros s Hs. unfold replace_name, road_name_id, enumerate. simpl.
    destruct (find_position 0 (unique String.eqb (somes names)) s) as (i & -> & Hi).
    - apply (unique_In _ _ _ String.eqb_eq), somes_In. exact Hs.
    - exists i. auto. }
  split; [|split; [|split]].
  - rewrite map_map. simpl. apply enumerate_fst.
  - rewrite map_map. simpl. unfold names.
    rewrite <- (enumerate_snd edges) at 2. rewrite map_map. reflexivity.
  - intros x Hx. destruct (Hrow x Hx) as [Hname ->].
    destruct (l_name x) as [s|]; [|split; reflexivity].
    destruct (Hpos s Hname) as (i & -> & _). split; discriminate.
  - intros x y s t Hx Hy Hs Ht.
    destruct (Hrow x Hx) as [Hnx ->]. destruct (Hrow y Hy) as [Hny ->].
    rewrite Hs, Ht in *. split; [|intros <-; reflexivity].
    destruct (Hpos s Hnx) as (i & -> & Hi). destruct (Hpos t Hny) as (j & -> & Hj).
    intros [= Hij]. apply Nat2Z.inj in Hij. subst j. congruence.
Qed.

(** X23: [_get_roads] numbers the links by their position and groups them into
    roads by name: two named links have the same road id exactly when
    they have the same name (a list of names counting as the names joined
    by a comma and a space), and a link has no road id exactly when it
    has no name. *)
Theorem get_roads_rows (city_crs : Z) (edges : list Edge) :
  let links := _get_roads_rows buffer reproject city_crs edges in
  map l_link_id links = map Z.of_nat (seq 0 (length edges))
  /\ map l_name links = map (fun e => link_name (edge_name e)) edges
  /\ (forall x, In x links -> (l_road_id x = None <-> l_name x = None))
  /\ (forall x y s t,
        In x links -> In y links -> l_name x = Some s -> l_name y = Some t ->
        (l_road_id x = l_road_id y <-> s = t)).
Proof.
  exact (get_roads_table city_crs edges).
Qed.

(** The row [_get_buildings] keeps for a building of the file. *)
Lemma get_buildings_map (file_crs : Z) (file : list FileBuilding)
  (links : list (@Link geometry)) :
  _get_buildings_rows reproject nearest file_crs file links
  = map (fun ib =>
           let g := reproject file_crs 4326 (f_geometry (snd ib)) in
           let ol := hd None (left_join (nearest g links)) in
           mkBuilding (f_address (snd ib)) (fst ib)
             (f_population_balanced (snd ib)) g
             (option_map l_link_id ol) (ol ≫= l_road_id))
        (enumerate file).
Proof.
  unfold _get_buildings_rows.
  apply (drop_duplicates_groups b_building_id fst).
  - rewrite enumerate_fst. apply seq_Z_NoDup.
  - intros [i f] _. simpl. split.
    + destruct (nearest _ links) as [|lk lks]; simpl; eauto.
    + intros y Hy. apply in_map_iff in Hy. destruct Hy as (ol & <- & _).
      reflexivity.
Qed.

(** The ids, populations, links and roads of [_get_buildings]. *)
Lemma get_buildings_table (file_crs : Z) (file : list FileBuilding)
  (links : list (@Link geometry)) :
  let buildings := _get_buildings_rows reproject nearest file_crs file links in
  map b_building_id buildings = map Z.of_nat (seq 0 (length file))
  /\ NoDup (map b_building_id buildings)
  /\ map population_balanced buildings = map f_population_balanced file
  /\ (forall x, In x buildings ->
        match b_link_id x with
        | Some l =>
            exists lk, In lk (nearest (b_geometry x) links)
                       /\ l_link_id lk = l /\ b_road_id x = l_road_id lk
        | None => b_road_id x = None
        end).
Proof.
  intros buildings. subst buildings. rewrite get_buildings_map.
  assert (Hids : map b_building_id
                   (map (fun ib =>
                           let g := reproject file_crs 4326 (f_geometry (snd ib)) in
                           let ol := hd None (left_join (nearest g links)) in
                           mkBuilding (f_address (snd ib)) (fst ib)
                             (f_population_balanced (snd ib)) g
                             (option_map l_link_id ol) (ol ≫= l_road_id))
                      (enumerate file))
                 = map Z.of_nat (seq 0 (length file))).
  { rewrite map_map. simpl. apply enumerate_fst. }
  split; [exact Hids|]. split; [rewrite Hids; apply seq_Z_NoDup|]. split.
  - rewrite map_map. simpl. rewrite <- (enumerate_snd file) at 2.
    rewrite map_map. reflexivity.
  - intros x Hx. apply in_map_iff in Hx. destruct Hx as ([i f] & <- & _). simpl.
    destruct (nearest _ links) as [|lk lks] eqn:Hn; simpl; [reflexivity|].
    exists lk. split; [left; reflexivity | auto].
Qed.

(** X24: [_get_buildings] returns one row for every building of the file, in
    the order of the file and numbered by position, with its population;
    a building has a road only through its link: its link and its road
    are those of one of the links nearest to it, and a building without
    link has no road. *)
Theorem get_buildings_rows (file_crs : Z) (file : list FileBuilding)
  (links : list (@Link geometry)) :
  let buildings := _get_buildings_rows reproject nearest file_crs file links in
  map b_building_id buildings = map Z.of_nat (seq 0 (length file))
  /\ NoDup (map b_building_id buildings)
  /\ map population_balanced buildings = map f_population_balanced file
  /\ (forall x, In x buildings ->
        match b_link_id x with
        | Some l =>
            exists lk, In lk (nearest (b_geometry x) links)
                       /\ l_link_id lk = l /\ b_road_id x = l_road_id lk
        | None => b_road_id x = None
        end).
Proof.
  exact (get_buildings_table file_crs file links).
Qed.

End LoaderProperties.

(** ** A run from the files *)

Section FromFilesProperties.

Context {geometry : Type} {float_ops : Float64}.
Variable intersects : geometry -> geometry -> bool.
Variable loads : string -> geometry.
Variable representative_point : list geometry -> geometry.
Variable buffer : geometry -> geometry.
Variable reproject : Z -> Z -> geometry -> geometry.
Variable nearest : geometry -> list (@Link geometry) -> list (@Link geometry).
Variable graph_edges : string -> Z -> list (@Edge geometry).
Variable messages_file : list CsvRow.
Variable population_file : list (@FileBuilding geometry).
Variable file_crs : Z.
Variable _create_model : Z -> TopicModel.


End FromFilesProperties.

(** * More cases, run *)

Lemma rebalance_events_rows_witness :
  exists out,
    _rebalance_events Cases.all_levels Demo.one_connection = Ok out
    /\ map (fun r => e_id (fst r)) out = ["0_link_2"; "0_road_4"; "0_global_0"]
    /\ map snd out = [120; 150; 1]%Z.
Proof.
  assert (Hl : forall l, l <> building ->
                 exists x, In x Cases.all_levels /\ e_level x = l).
  { intros [| | |] Hl; [contradiction| | |];
      [exists Cases.link_event|exists Demo.road_event|exists Cases.global_event];
      (split; [simpl; auto 6|reflexivity]). }
  destruct (rebalance_events_rows Cases.all_levels Demo.one_connection Hl)
    as (out & Hout & _).
  exists out. split; [exact Hout|].
  assert (E : _rebalance_events Cases.all_levels Demo.one_connection
              = Ok [(Cases.link_event, 120%Z); (Demo.road_event, 150%Z);
                    (Cases.global_event, 1%Z)])
    by (vm_compute; reflexivity).
  rewrite E in Hout. injection Hout as <-. split; reflexivity.
Defined.

Lemma get_event_connections_rows_witness :
  _get_event_connections Cases.one_event = Raise ValueError
  /\ exists table,
       _get_event_connections Cases.event_pair = Ok table
       /\ forall c, In c (rows table) -> 0 < weight c.
Proof.
  split.
  - apply (proj1 (get_event_connections_rows Cases.one_event)). simpl. lia.
  - destruct (proj2 (get_event_connections_rows Cases.event_pair) 0 1 _ _
                ltac:(lia) eq_refl eq_refl)
      as (table & Htable & _ & Hrows); [vm_compute; lia|].
    exists table. split; [exact Htable|]. intros c Hc. apply Hrows, Hc.
Defined.

Lemma get_events_rows_witness :
  exists table extracted,
    _get_events Demo.create_model
      (mkGeo (Demo.preprocessed Demo.messages40) (Some 4326%Z)) Demo.buildings 5
    = Ok table
    /\ extracted_events Demo.create_model (Demo.preprocessed Demo.messages40)
         Demo.buildings 5 = Ok extracted
    /\ map id (rows table) = map e_id extracted
    /\ map population (rows table) = map potential_population extracted.
Proof.
  assert (H : {t | _get_events Demo.create_model
                     (mkGeo (Demo.preprocessed Demo.messages40) (Some 4326%Z))
                     Demo.buildings 5 = Ok t})
    by (eexists; vm_compute; reflexivity).
  destruct H as [table H].
  destruct (get_events_rows _ _ _ _ _ H)
    as (extracted & Hx & _ & Hid & _ & _ & Hpop & _).
  exists table, extracted. auto.
Defined.

Lemma shared_message_connected_witness :
  exists table connections c,
    _get_events Demo.create_model
      (mkGeo (Demo.preprocessed Demo.messages40) (Some 4326%Z)) Demo.buildings 5
    = Ok table
    /\ _get_event_connections table = Ok connections
    /\ In c (rows connections)
    /\ a c = "0_global_0" /\ b c = "0_building_0" /\ 0 < weight c.
Proof.
  assert (H : {tx | _get_events Demo.create_model
                      (mkGeo (Demo.preprocessed Demo.messages40) (Some 4326%Z))
                      Demo.buildings 5 = Ok (fst tx)
                    /\ extracted_events Demo.create_model
                         (Demo.preprocessed Demo.messages40) Demo.buildings 5
                       = Ok (fst (snd tx))
                    /\ nth_error (fst (snd tx)) 0 = Some (fst (snd (snd tx)))
                    /\ nth_error (fst (snd tx)) 3 = Some (snd (snd (snd tx)))
                    /\ e_id (fst (snd (snd tx))) = "0_global_0"
                    /\ e_id (snd (snd (snd tx))) = "0_building_0"
                    /\ In 1%Z (e_message_ids (fst (snd (snd tx))))
                    /\ In 1%Z (e_message_ids (snd (snd (snd tx)))) }).
  { refine (exist _ (_, (_, (_, _))) _). cbn [fst snd].
    split; [vm_compute; reflexivity|]. split; [vm_compute; reflexivity|].
    split; [reflexivity|]. split; [reflexivity|].
    split; [reflexivity|]. split; [reflexivity|].
    split; left; reflexivity. }
  destruct H as [[table [extracted [x y]]]
                   (Ht & Hx & H0 & H3 & Hidx & Hidy & Hzx & Hzy)].
  cbn [fst snd] in *.
  destruct (shared_message_connected Demo.create_model _ _ _ _ _ 0 3 x y 1%Z
              Ht Hx ltac:(lia) H0 H3 Hzx Hzy)
    as (connections & c & Hc & Hin & Ha & Hb & Hw).
  exists table, connections, c.
  split; [exact Ht|]. split; [exact Hc|]. rewrite Ha, Hb. auto.
Defined.

Lemma connection_weight_bound_witness :
  exists table connections,
    _get_events Demo.create_model
      (mkGeo (Demo.preprocessed Demo.messages40) (Some 4326%Z)) Demo.buildings 5
    = Ok table
    /\ _get_event_connections table = Ok connections
    /\ rows connections <> []
    /\ forall c, In c (rows connections) -> 0 < weight c <= 13.
Proof.
  assert (H : {tc | _get_events Demo.create_model
                      (mkGeo (Demo.preprocessed Demo.messages40) (Some 4326%Z))
                      Demo.buildings 5 = Ok (fst tc)
                    /\ _get_event_connections (fst tc) = Ok (snd tc)
                    /\ rows (snd tc) <> [] }).
  { refine (exist _ (_, _) _). cbn [fst snd].
    split; [vm_compute; reflexivity|]. split; [vm_compute; reflexivity|].
    discriminate. }
  destruct H as [[table connections] (Ht & Hc & Hne)]. cbn [fst snd] in *.
  exists table, connections.
  split; [exact Ht|]. split; [exact Hc|]. split; [exact Hne|].
  intros c Hin.
  exact (connection_weight_bound Demo.create_model _ _ _ _ _ c Ht Hc Hin).
Defined.

(** ** More cases of one object *)

Lemma event_members_witness :
  exists events,
    Demo.events_of Demo.messages40 5%Z building 0%Z = Ok (Some events)
    /\ events <> []
    /\ forall e z,
         In e events -> In z (e_message_ids e) ->
         In z (map message_id (Demo.members Demo.messages40 building 0%Z)).
Proof.
  assert (H : {events | Demo.events_of Demo.messages40 5%Z building 0%Z
                        = Ok (Some events) /\ events <> [] }).
  { eexists. split; [vm_compute; reflexivity|discriminate]. }
  destruct H as [events [H Hne]]. exists events.
  split; [exact H|]. split; [exact Hne|].
  exact (proj1 (event_members _ _ _ _ _ _ _ _ H)).
Defined.

Lemma event_duration_witness :
  exists events e,
    Demo.events_of Demo.messages40 5%Z building 0%Z = Ok (Some events)
    /\ In e events
    /\ e_duration e = Some 19%Z.
Proof.
  assert (H : {p | Demo.events_of Demo.messages40 5%Z building 0%Z
                   = Ok (Some (fst p))
                   /\ nth_error (fst p) 0 = Some (snd p)
                   /\ e_duration (snd p) = Some 19%Z}).
  { refine (exist _ (_, _) _). cbn [fst snd].
    split; [vm_compute; reflexivity|]. split; reflexivity. }
  destruct H as [[events e] (H & He & Hd)]. cbn [fst snd] in *.
  exists events, e. split; [exact H|].
  apply nth_error_In in He. split; [exact He|].
  pose proof (event_duration _ _ _ _ _ _ _ _ e H He) as Hdur.
  rewrite Hd in Hdur |- *. reflexivity.
Defined.

Lemma clustering_failures_witness :
  _event_from_object Demo.buildings (Demo.preprocessed Demo.messages40)
    (Cases.failing_model TypeError) building (_collect_population Demo.buildings)
    (Some 0%Z) building
  = Ok None
  /\ _event_from_object Demo.buildings (Demo.preprocessed Demo.messages40)
       (Cases.failing_model KeyError) building
       (_collect_population Demo.buildings) (Some 0%Z) building
     = Raise KeyError
  /\ _event_from_object Demo.buildings (Demo.preprocessed Demo.messages40)
       Cases.unrefinable_model building (_collect_population Demo.buildings)
       (Some 0%Z) building
     = _event_from_object Demo.buildings (Demo.preprocessed Demo.messages40)
         (unrefined Cases.unrefinable_model) building
         (_collect_population Demo.buildings) (Some 0%Z) building.
Proof.
  assert (Hlen : 5 <= length (map text
                                (Demo.members Demo.messages40 building 0%Z)))
    by (vm_compute; lia).
  split; [|split].
  - exact (proj1 (clustering_failures Demo.buildings
                    (Demo.preprocessed Demo.messages40)
                    (Cases.failing_model TypeError) building
                    (_collect_population Demo.buildings) (Some 0%Z) building
                    Hlen) eq_refl).
  - refine (proj1 (proj2 (clustering_failures Demo.buildings
                            (Demo.preprocessed Demo.messages40)
                            (Cases.failing_model KeyError) building
                            (_collect_population Demo.buildings) (Some 0%Z)
                            building Hlen)) KeyError _ eq_refl).
    discriminate.
  - refine (proj2 (proj2 (clustering_failures Demo.buildings
                            (Demo.preprocessed Demo.messages40)
                            Cases.unrefinable_model building
                            (_collect_population Demo.buildings) (Some 0%Z)
                            building Hlen)) _ eq_refl eq_refl).
Defined.

(** ** More cases of the joins *)

Lemma preprocess_fallback_witness :
  exists m',
    In m' (rows (_preprocess Demo.intersects
                   (mkGeo [Demo.corner_message] (Some 4326%Z))
                   Demo.corner_buildings Demo.corner_links))
    /\ building_id m' = Some 3%Z
    /\ exists x, In x Demo.corner_buildings
                 /\ Demo.intersects (m_geometry m') (b_geometry x) = true
                 /\ b_building_id x = 3%Z.
Proof.
  assert (H : {m' | nth_error
                      (rows (_preprocess Demo.intersects
                               (mkGeo [Demo.corner_message] (Some 4326%Z))
                               Demo.corner_buildings Demo.corner_links)) 0
                    = Some m'
                    /\ building_id m' = Some 3%Z}).
  { eexists. split; [vm_compute; reflexivity|reflexivity]. }
  destruct H as [m' [H Hb]]. apply nth_error_In in H.
  exists m'. split; [exact H|]. split; [exact Hb|].
  exact (proj1 (preprocess_fallback Demo.intersects _ _ _ m' H) 3%Z Hb).
Defined.

Lemma preprocess_one_row_each_witness :
  map message_id (Demo.preprocessed Demo.messages3) = [1; 2; 3]%Z.
Proof.
  rewrite (preprocess_one_row_each Demo.intersects
             (mkGeo Demo.messages3 (Some 4326%Z)) Demo.buildings
             (Demo.get_roads "City" 32636)).
  - reflexivity.
  - intros m Hm. vm_compute in Hm.
    destruct Hm as [<-|[<-|[<-|[]]]]; split; vm_compute; lia.
  - vm_compute. repeat constructor; intros H;
      repeat (destruct H as [H|H]; try discriminate H); exact H.
Defined.

(** ** More cases of the population *)


(** ** More cases of the whole run *)

Lemma get_events_few_messages_witness :
  _get_events Demo.create_model
    (mkGeo (Demo.preprocessed Demo.messages3) (Some 4326%Z)) Demo.buildings 2
  = Raise ValueError.
Proof.
  apply get_events_few_messages. vm_compute. lia.
Defined.

Lemma run_needs_witness :
  Demo.run Demo.messages3 32636 2 = Raise ValueError.
Proof.
  apply (proj1 (run_needs Demo.intersects Demo.transform Demo.messages3
                  Demo.get_roads Demo.get_buildings Demo.create_model
                  "City" 32636 2)).
  vm_compute. lia.
Defined.

Lemma run_messages_witness :
  exists messages events connections,
    Demo.run Demo.messages8 32636 5 = Ok (messages, events, connections)
    /\ map o_message_id (rows messages) = Demo.ids 1 8.
Proof.
  assert (H : {r | Demo.run Demo.messages8 32636 5 = Ok r})
    by (eexists; vm_compute; reflexivity).
  destruct H as [[[messages events] connections] H].
  exists messages, events, connections. split; [exact H|].
  rewrite (run_messages _ _ _ _ _ _ _ _ _ _ _ _ H), map_map.
  vm_compute. reflexivity.
Defined.

Lemma run_connections_closed_witness :
  exists messages events connections,
    Demo.run Demo.messages40 32636 5 = Ok (messages, events, connections)
    /\ rows connections <> []
    /\ forall c, In c (rows connections) ->
         0 < weight c
         /\ (exists e, In e (rows events) /\ id e = a c)
         /\ (exists e, In e (rows events) /\ id e = b c).
Proof.
  assert (H : {r | Demo.run Demo.messages40 32636 5 = Ok r
                   /\ rows (snd r) <> [] }).
  { eexists. split; [vm_compute; reflexivity|discriminate]. }
  destruct H as [[[messages events] connections] [H Hne]].
  exists messages, events, connections.
  split; [exact H|]. split; [exact Hne|]. intros c Hc.
  exact (run_connections_closed _ _ _ _ _ _ _ _ _ _ _ _ c
           demo_topic_names H Hc).
Defined.


(** ** The loaders on the files of the small town *)

Lemma read_data_rows_witness :
  map raw_message_id
    (_read_data_rows Cases.loads Cases.representative_point Cases.messages_file)
  = [2; 4; 6; 8; 1; 3; 5; 7]%Z.
Proof.
  rewrite (proj1 (read_data_rows Cases.loads Cases.representative_point
                    Cases.messages_file)).
  vm_compute. reflexivity.
Defined.

Lemma get_roads_rows_witness :
  map l_link_id Cases.file_links = [0; 1; 2; 3]%Z
  /\ map l_road_id Cases.file_links = [Some 0; Some 1; None; Some 0]%Z.
Proof.
  split.
  - rewrite (proj1 (get_roads_rows Cases.buffer Demo.transform 32636
                      (Cases.graph_edges "City" 32636))).
    reflexivity.
  - vm_compute. reflexivity.
Defined.

Lemma get_buildings_rows_witness :
  map b_building_id Cases.file_buildings = [0; 1]%Z
  /\ map b_link_id Cases.file_buildings = [Some 0; Some 0]%Z.
Proof.
  split.
  - rewrite (proj1 (get_buildings_rows Demo.transform Cases.nearest 4326
                      Cases.population_file Cases.file_links)).
    reflexivity.
  - vm_compute. reflexivity.
Defined.
